(** * coffeeAI: the chat ordering core

    A shallow embedding of the conversational ordering pipeline of
    [chatbot_rag-main/core]: the keyword intent classifier and the context
    policies of [llm_utils.py], the response-to-action extractor and the
    cart / checkout operations of [order_processor.py], and the
    orchestrator [RAGSystem.generate_response] of [rag.py].

    Python [str] values are sequences of Unicode code points.  The
    character tables of the Python runtime the code relies on
    ([str.lower], [str.isspace], the regular expression classes [\s] and
    [\d], and [re.IGNORECASE]) are an interface, [Unicode]; the instance
    [ascii_tables] is the one used to run the model on ASCII text.
    Money is IEEE binary64, as Python's [float]. *)

From Stdlib Require Import String Ascii List NArith ZArith Bool Lia Floats.
From stdpp Require Import base option list gmap.
Import ListNotations.

#[local] Set Warnings "-inexact-float".
#[local] Open Scope N_scope.
#[local] Open Scope list_scope.

(* ================================================================== *)
(** ** Text *)

Definition char := N.
Definition str := list char.

(** Literals are written as UTF-8 and decoded to code points. *)
Fixpoint utf8_decode (bs : list N) : str :=
  match bs with
  | [] => []
  | b0 :: r0 =>
    if b0 <? 128 then b0 :: utf8_decode r0
    else match r0 with
    | [] => []
    | b1 :: r1 =>
      if b0 <? 224 then ((b0 - 192) * 64 + (b1 - 128)) :: utf8_decode r1
      else match r1 with
      | [] => []
      | b2 :: r2 =>
        if b0 <? 240
        then ((b0 - 224) * 4096 + (b1 - 128) * 64 + (b2 - 128)) :: utf8_decode r2
        else match r2 with
        | [] => []
        | b3 :: r3 =>
          ((b0 - 240) * 262144 + (b1 - 128) * 4096 + (b2 - 128) * 64 + (b3 - 128))
            :: utf8_decode r3
        end
      end
    end
  end.

Definition u (s : string) : str :=
  utf8_decode (List.map N_of_ascii (list_ascii_of_string s)).

Definition str_eqb (a b : str) : bool := bool_decide (a = b).

(** [p in s] on strings. *)
Fixpoint starts_with (p s : str) : bool :=
  match p, s with
  | [], _ => true
  | _ :: _, [] => false
  | a :: p', b :: s' => (a =? b) && starts_with p' s'
  end.

Fixpoint contains (p s : str) : bool :=
  starts_with p s ||
  match s with
  | [] => false
  | _ :: r => contains p r
  end.

(** [any(keyword in text for keyword in keywords)] *)
Definition any_in (keywords : list str) (text : str) : bool :=
  existsb (fun keyword => contains keyword text) keywords.

(** [sep.join(parts)] *)
Fixpoint join (sep : str) (parts : list str) : str :=
  match parts with
  | [] => []
  | [p] => p
  | p :: rest => p ++ sep ++ join sep rest
  end.

(** [s.replace(c, "")] for a single character [c]. *)
Definition remove_char (c : char) (s : str) : str :=
  List.filter (fun x => negb (x =? c)) s.

(** Decimal rendering of a number, as [str(n)] or an f-string field. *)
Fixpoint digits_of_fuel (fuel : nat) (n : N) (acc : str) : str :=
  match fuel with
  | O => acc
  | S fuel' =>
    let acc' := (48 + n mod 10) :: acc in
    if n <? 10 then acc' else digits_of_fuel fuel' (n / 10) acc'
  end.

Definition str_of_N (n : N) : str := digits_of_fuel (S (N.to_nat (N.log2 n))) n [].

(** The tables of the runtime. *)
Class Unicode := {
  lower : str -> str;            (* str.lower() *)
  isspace : char -> bool;        (* str.isspace(), \s *)
  isdecimal : char -> bool;      (* \d *)
  decimal_value : char -> N;     (* the digit int() reads *)
  casefold : char -> char        (* the case class re.IGNORECASE compares *)
}.

Definition ascii_lower (c : char) : char :=
  if (65 <=? c) && (c <=? 90) then c + 32 else c.

Definition ascii_space (c : char) : bool :=
  ((9 <=? c) && (c <=? 13)) || ((28 <=? c) && (c <=? 32)).

Definition ascii_digit (c : char) : bool := (48 <=? c) && (c <=? 57).

(** The tables restricted to ASCII: every other code point is taken as
    caseless, and as neither white space nor a digit. *)
Definition ascii_tables : Unicode := {|
  lower := List.map ascii_lower;
  isspace := ascii_space;
  isdecimal := ascii_digit;
  decimal_value c := c - 48;
  casefold := ascii_lower
|}.

(** What the code needs of the tables on and around ASCII. *)
Class UnicodeFacts (U : Unicode) := {
  casefold_ascii : forall c, c < 128 -> casefold c = ascii_lower c;
  isspace_ascii : forall c, c < 128 -> isspace c = ascii_space c;
  isdecimal_ascii : forall c, c < 128 -> isdecimal c = ascii_digit c;
  decimal_value_ascii : forall c, ascii_digit c = true -> decimal_value c = c - 48;
  isspace_casefold : forall c, isspace (casefold c) = isspace c;
  isdecimal_casefold : forall c, isdecimal (casefold c) = isdecimal c;
  isspace_not_decimal : forall c, isspace c = true -> isdecimal c = false
}.

Section Text.
Context {U : Unicode}.

(** [s.split()]: the maximal runs of characters that are not white space. *)
Fixpoint split_from (s : str) (word : str) : list str :=
  match s with
  | [] => match word with [] => [] | _ => [rev word] end
  | c :: r =>
    if isspace c
    then match word with [] => split_from r [] | _ => rev word :: split_from r [] end
    else split_from r (c :: word)
  end.

Definition split (s : str) : list str := split_from s [].

Fixpoint lstrip (s : str) : str :=
  match s with
  | c :: r => if isspace c then lstrip r else s
  | [] => []
  end.

(** [s.strip()] *)
Definition strip (s : str) : str := rev (lstrip (rev (lstrip s))).

(** [int(s)] on a string of decimal digits, as an integer of any size;
    the bound some interpreters put on the length of [s] is left out. *)
Definition int_of_digits (s : str) : N :=
  fold_left (fun acc c => 10 * acc + decimal_value c) s 0.
End Text.

(* ================================================================== *)
(** ** llm_utils.py: intent classification *)

Inductive intent :=
| order_taking | confirmation | checkout | payment_method | cart_management
| order_status | sales | refund | support | general | error.

#[global] Instance intent_eq_dec : EqDecision intent.
Proof. solve_decision. Defined.

Definition order_taking_keywords : list str := List.map u [
  "i want"; "i'd like"; "can i get"; "can i have"; "i'll take"; "i'll have";
  "place order"; "make order"; "order for me"; "i need"; "give me";
  "add to cart"; "put in cart"; "add to my order"; "include"; "also add";
  "i'll order"; "let me order"; "order now";
  "yes add it"; "yes add that"; "add it"; "add that"; "yes please add";
  "take it"; "i'll take that"; "yes please"; "sounds good"; "perfect";
  "yes to cart"; "add to my cart"; "put it in cart"; "yes add to cart"
]%string.

Definition confirmation_keywords : list str := List.map u [
  "yes"; "yeah"; "yep"; "sure"; "okay"; "ok"; "that one"; "the first one";
  "the second one"; "correct"; "right"; "exactly"
]%string.

Definition checkout_keywords : list str := List.map u [
  "checkout"; "complete order"; "place my order"; "finalize order";
  "proceed to checkout"; "ready to order"; "confirm order"; "finish order";
  "complete my order"; "submit order"; "process order"
]%string.

Definition payment_keywords : list str := List.map u [
  "pay with"; "payment method"; "i'll pay"; "cash payment"; "card payment";
  "upi payment"; "digital wallet"; "credit card"; "debit card";
  "phonepe"; "gpay"; "paytm"; "amazon pay"; "cash"; "card"; "upi"
]%string.

Definition cart_keywords : list str := List.map u [
  "cart"; "basket"; "my order"; "what's in my"; "show my"; "remove from";
  "delete from"; "change quantity"; "update my"; "clear cart"; "empty cart";
  "view cart"; "check cart"; "modify order"; "edit order"
]%string.

Definition order_status_keywords : list str := List.map u [
  "order status"; "track order"; "where is my"; "delivery status";
  "order confirmation"; "receipt"; "order number"; "my orders"
]%string.

Definition sales_keywords : list str := List.map u [
  "price"; "cost"; "available"; "stock"; "catalog"; "shop"; "store";
  "discount"; "offer"; "promo"; "new"; "recommendation"; "suggest";
  "tell me about"; "what do you have"; "show me"; "browse"; "menu";
  "do you have"; "do you sell"; "any"; "which"; "what kind"; "what type";
  "organic coffee"; "coffee"; "tea"; "beans"; "drink"; "beverage";
  "flavors"; "sizes"; "options"; "varieties"; "selection"
]%string.

Definition refund_keywords : list str := List.map u [
  "refund"; "return"; "exchange"; "cancel"; "money back"; "replacement";
  "damaged"; "defective"; "wrong"; "mistake"; "complaint"; "issue"
]%string.

Definition support_keywords : list str := List.map u [
  "help"; "support"; "contact"; "hours"; "location"; "store"; "delivery";
  "shipping"; "payment"; "account"; "login"; "register"
]%string.

Section Classifier.
Context {U : Unicode}.

Definition classify_intent (query : str) : intent :=
  let query_lower := lower query in
  if any_in order_taking_keywords query_lower then order_taking
  else if any_in confirmation_keywords query_lower
          && (length (split (strip query)) <=? 2)%nat then confirmation
  else if any_in checkout_keywords query_lower then checkout
  else if any_in payment_keywords query_lower then payment_method
  else if any_in cart_keywords query_lower then cart_management
  else if any_in order_status_keywords query_lower then order_status
  else if any_in sales_keywords query_lower then sales
  else if any_in refund_keywords query_lower then refund
  else if any_in support_keywords query_lower then support
  else general.
End Classifier.


(** [extract_payment_method]: the mapping is scanned in the order the
    dictionary literal lists it. *)
Definition payment_mapping : list (str * list str) := [
  (u "cash", List.map u ["cash"; "cash payment"; "pay cash"; "pay with cash"]%string);
  (u "card", List.map u ["card"; "credit card"; "debit card"; "card payment"; "pay with card"]%string);
  (u "upi", List.map u ["upi"; "phonepe"; "gpay"; "google pay"; "paytm upi"; "bhim"; "upi payment"]%string);
  (u "digital_wallet", List.map u ["paytm"; "amazon pay"; "mobikwik"; "freecharge"; "wallet"; "digital wallet"]%string)
].

Definition banned_words : list str := List.map u
  ["kill"; "murder"; "harm"; "die"; "bomb"; "weapon"; "stab"; "suicide"]%string.

Definition product_context_keywords : list str := List.map u [
  "this"; "that"; "it"; "the one"; "same"; "different"; "another";
  "previous"; "last"; "earlier"; "mentioned"; "discussed";
  "compare"; "vs"; "versus"; "difference between";
  "similar"; "like that"; "alternative"
]%string.

Definition reference_keywords : list str := List.map u [
  "this product"; "that coffee"; "the beans"; "same order";
  "my order"; "my coffee"; "my purchase"; "what I bought"
]%string.

(** The confirmation list shared by the two context policies. *)
Definition policy_confirmation_keywords : list str := List.map u [
  "yes"; "yeah"; "yep"; "sure"; "okay"; "ok"; "add it"; "add that";
  "take it"; "i'll take that"; "yes please"; "sounds good"; "perfect"
]%string.

Definition context_keywords : list str := List.map u [
  "continue"; "also"; "and"; "what about"; "how about";
  "yes"; "no"; "okay"; "sure"; "thanks"; "thank you";
  "previous"; "earlier"; "before"; "last time";
  "again"; "still"; "more"; "else"; "other"
]%string.

Definition get_agent_name (i : intent) : str :=
  match i with
  | order_taking => u "Order Taking Specialist"
  | confirmation => u "Product Specialist"
  | cart_management => u "Cart Management Specialist"
  | order_status => u "Order Status Specialist"
  | checkout => u "Checkout Specialist"
  | payment_method => u "Payment Specialist"
  | sales => u "Product Specialist"
  | refund => u "Customer Service Agent"
  | support => u "Support Agent"
  | general => u "BrewMaster Assistant"
  | error => u "BrewMaster Assistant"
  end.

Section Policies.
Context {U : Unicode}.

Definition extract_payment_method (query : str) : option str :=
  let query_lower := lower query in
  fst <$> List.find (fun entry => any_in (snd entry) query_lower) payment_mapping.

Definition is_safe_query (query : str) : bool :=
  let query_lower := lower query in
  negb (existsb (fun word => contains word query_lower) banned_words).

Definition should_resolve_product_context (query : str) (i : intent) : bool :=
  let query_lower := lower query in
  if bool_decide (i = order_taking) then true
  else if any_in policy_confirmation_keywords query_lower then true
  else if bool_decide (i = sales)
          && any_in (product_context_keywords ++ reference_keywords) query_lower then true
  else if bool_decide (i = refund) && any_in reference_keywords query_lower then true
  else if any_in product_context_keywords query_lower then true
  else false.

Definition should_use_chat_history (query : str) (i : intent) : bool :=
  let query_lower := lower query in
  if bool_decide (i = order_taking) then true
  else if any_in policy_confirmation_keywords query_lower then true
  else if (length (split query) <=? 3)%nat then true
  else if any_in context_keywords query_lower then true
  else if bool_decide (i = refund) then true
  else false.
End Policies.

(* ================================================================== *)
(** ** The regular expressions of the source

    The patterns are kept as syntax and run by a backtracking matcher with
    greedy quantifiers, as Python's [re] runs them.  Every repetition in
    the source is over a single character class. *)

Inductive cls :=
| space                       (* \s *)
| digit                       (* \d *)
| anychar                     (* .  *)
| oneof (members : str)       (* [...]  *)
| noneof (members : str).     (* [^...] *)

Inductive re :=
| Lit (s : str)
| One (k : cls)
| Star (k : cls)
| Plus (k : cls)
| Cat (a b : re)
| Opt (a : re)                (* (?:a)? *)
| Group (i : nat) (a : re).   (* the i-th capturing group *)

Definition captures := list (nat * str).

Definition group (c : captures) (i : nat) : str :=
  match List.find (fun e => Nat.eqb (fst e) i) c with
  | Some e => snd e
  | None => []
  end.

Section Matcher.
Context {U : Unicode}.
Variable ignorecase : bool.

Definition chr_eq (p c : char) : bool :=
  if ignorecase then casefold p =? casefold c else p =? c.

Definition in_cls (k : cls) (c : char) : bool :=
  match k with
  | space => isspace c
  | digit => isdecimal c
  | anychar => negb (c =? 10)
  | oneof l => existsb (fun p => chr_eq p c) l
  | noneof l => negb (existsb (fun p => chr_eq p c) l)
  end.

Fixpoint lit {A} (p s : str) (k : str -> option A) : option A :=
  match p with
  | [] => k s
  | a :: p' =>
    match s with
    | c :: s' => if chr_eq a c then lit p' s' k else None
    | [] => None
    end
  end.

(** Greedy repetition: the longest run first, then shorter ones. *)
Fixpoint star {A} (f : char -> bool) (s : str) (k : str -> option A) : option A :=
  match s with
  | c :: s' =>
    if f c then
      match star f s' k with
      | Some x => Some x
      | None => k s
      end
    else k s
  | [] => k []
  end.

Definition plus {A} (f : char -> bool) (s : str) (k : str -> option A) : option A :=
  match s with
  | c :: s' => if f c then star f s' k else None
  | [] => None
  end.

Fixpoint exec {A} (r : re) (s : str) (c : captures)
    (k : str -> captures -> option A) : option A :=
  match r with
  | Lit p => lit p s (fun s' => k s' c)
  | One f => match s with
            | x :: s' => if in_cls f x then k s' c else None
            | [] => None
            end
  | Star f => star (in_cls f) s (fun s' => k s' c)
  | Plus f => plus (in_cls f) s (fun s' => k s' c)
  | Cat a b => exec a s c (fun s' c' => exec b s' c' k)
  | Opt a => match exec a s c k with
             | Some x => Some x
             | None => k s c
             end
  | Group i a =>
      exec a s c (fun s' c' => k s' ((i, take (length s - length s') s) :: c'))
  end.

(** [re.match] at the head of [s]: the rest of the text and the groups. *)
Definition match_here (r : re) (s : str) : option (str * captures) :=
  exec r s [] (fun s' c => Some (s', c)).

(** [re.findall]: matches from left to right, not overlapping; [skip]
    counts the characters of the last match still to pass.  Each match
    gives its [n] groups, an unset group as the empty string. *)
Fixpoint findall_from (r : re) (n : nat) (s : str) (skip : nat) : list (list str) :=
  match skip, s with
  | S skip', _ :: t => findall_from r n t skip'
  | S _, [] => []
  | O, _ =>
    match match_here r s with
    | Some (s', c) =>
        List.map (group c) (seq 1 n) ::
        match s with
        | [] => []
        | _ :: t => findall_from r n t (length s - length s' - 1)
        end
    | None =>
        match s with
        | [] => []
        | _ :: t => findall_from r n t 0
        end
    end
  end.

Definition findall (r : re) (n : nat) (s : str) : list (list str) :=
  findall_from r n s 0.
End Matcher.

Declare Scope re_scope.
Delimit Scope re_scope with re.
Bind Scope re_scope with re.
Infix "⊙" := Cat (at level 60, right associativity) : re_scope.

(** [Product ID\s*(\d+)(?:,\s*Size:\s*([^,]+))?(?:,\s*Quantity:\s*(\d+))?],
    the part the two directive patterns share, after [\s*]. *)
Definition size_field : re :=
  (Lit (u ",") ⊙ Star space ⊙ Lit (u "Size:") ⊙ Star space ⊙ Group 2 (Plus (noneof (u ","))))%re.

Definition quantity_field : re :=
  (Lit (u ",") ⊙ Star space ⊙ Lit (u "Quantity:") ⊙ Star space ⊙ Group 3 (Plus digit))%re.

Definition directive_fields : re :=
  (Star space ⊙ Lit (u "Product ID") ⊙ Star space ⊙ Group 1 (Plus digit)
   ⊙ Opt size_field ⊙ Opt quantity_field)%re.

(** [r'🛒\s*\*\*ADD TO CART\*\*:\s*Product ID\s*(\d+)(?:,\s*Size:\s*([^,]+))?(?:,\s*Quantity:\s*(\d+))?'] *)
Definition add_to_cart_pattern : re :=
  (Lit (u "🛒") ⊙ Star space ⊙ Lit (u "**ADD TO CART**:") ⊙ directive_fields)%re.

(** [r'ADD TO CART:\s*Product ID\s*(\d+)(?:,\s*Size:\s*([^,]+))?(?:,\s*Quantity:\s*(\d+))?'] *)
Definition add_to_cart_alt_pattern : re :=
  (Lit (u "ADD TO CART:") ⊙ directive_fields)%re.

(** [r'\*\*([^*]+)\*\*\s*\(ID:\s*(\d+)\)\s*-\s*[₹$]([0-9.,]+)'] *)
Definition product_pattern : re :=
  (Lit (u "**") ⊙ Group 1 (Plus (noneof (u "*"))) ⊙ Lit (u "**") ⊙ Star space
   ⊙ Lit (u "(ID:") ⊙ Star space ⊙ Group 2 (Plus digit) ⊙ Lit (u ")") ⊙ Star space
   ⊙ Lit (u "-") ⊙ Star space ⊙ One (oneof (u "₹$"))
   ⊙ Group 3 (Plus (oneof (u "0123456789.,"))))%re.

(** [r'ADD TO CART.*Product ID\s*(\d+)'] *)
Definition cart_pattern : re :=
  (Lit (u "ADD TO CART") ⊙ Star anychar ⊙ Lit (u "Product ID") ⊙ Star space
   ⊙ Group 1 (Plus digit))%re.

(* ================================================================== *)
(** ** Exceptions, results and stateful computations *)

Inductive exn := Exception (msg : str).

(** [str(e)] *)
Definition str_of_exn (e : exn) : str := match e with Exception msg => msg end.

Inductive res (A : Type) :=
| Ok (a : A)
| Raise (e : exn).
Arguments Ok {A} a.
Arguments Raise {A} e.

(** A computation over a mutable store [S] that returns or raises. *)
Definition M (S A : Type) : Type := S -> res A * S.

Definition ret {S A} (a : A) : M S A := fun st => (Ok a, st).

Definition raise {S A} (e : exn) : M S A := fun st => (Raise e, st).

Definition bind {S A B} (m : M S A) (f : A -> M S B) : M S B :=
  fun st =>
    match m st with
    | (Ok a, st') => f a st'
    | (Raise e, st') => (Raise e, st')
    end.

(** [try: m  except Exception as e: handler(e)] *)
Definition try_except {S A} (m : M S A) (handler : exn -> M S A) : M S A :=
  fun st =>
    match m st with
    | (Ok a, st') => (Ok a, st')
    | (Raise e, st') => handler e st'
    end.

Definition of_res {S A} (r : res A) : M S A := fun st => (r, st).

Notation "x <- m ;; k" := (bind m (fun x => k))
  (at level 100, m at next level, right associativity).

Fixpoint res_map {A B} (f : A -> res B) (l : list A) : res (list B) :=
  match l with
  | [] => Ok []
  | a :: rest =>
    match f a with
    | Raise e => Raise e
    | Ok b =>
      match res_map f rest with
      | Raise e => Raise e
      | Ok bs => Ok (b :: bs)
      end
    end
  end.

(* ================================================================== *)
(** ** Numbers as text *)

Definition str_of_Z (z : Z) : str :=
  match z with
  | Zneg p => 45 :: str_of_N (Npos p)
  | _ => str_of_N (Z.to_N z)
  end.

(** [f"{x:.2f}"]: the exact binary value rounded half-even to two places. *)
Definition format_2f (x : float) : str :=
  match Prim2SF x with
  | S754_nan => u "nan"
  | S754_infinity s => (if s then u "-inf" else u "inf")
  | S754_zero s => (if s then u "-0.00" else u "0.00")
  | S754_finite s m e =>
    let n := (Z.pos m * 100)%Z in
    let q := match e with
             | Zneg p =>
               let d := Z.pow 2 (Z.pos p) in
               let q0 := (n / d)%Z in
               let r := (n mod d)%Z in
               if (d <? 2 * r)%Z || ((d =? 2 * r)%Z && Z.odd q0) then (q0 + 1)%Z else q0
             | _ => (n * Z.pow 2 e)%Z
             end in
    let cents := Z.to_N (q mod 100)%Z in
    (if s then [45] else []) ++ str_of_N (Z.to_N (q / 100)%Z)
      ++ [46; 48 + cents / 10; 48 + cents mod 10]
  end.

(** A decimal numeral [digits / 10 ^ scale], the number [float()] reads
    from a price; Python then rounds it to the nearest binary64. *)
Record decimal := { dec_digits : N; dec_scale : nat }.

Fixpoint after_point (s : str) : str :=
  match s with
  | [] => []
  | c :: r => if c =? 46 then r else after_point r
  end.

(** [float(s)] on a string of ASCII digits and points, which is what
    [[0-9.,]+] leaves once the commas are removed: [ValueError] unless
    there is a digit and at most one point. *)
Definition float_of_price (s : str) : res decimal :=
  let ds := List.filter ascii_digit s in
  let points := List.filter (fun c => c =? 46) s in
  if forallb (fun c => ascii_digit c || (c =? 46)) s
     && negb (Nat.eqb (length ds) 0) && (length points <=? 1)%nat
  then Ok {| dec_digits := fold_left (fun acc c => 10 * acc + (c - 48)) ds 0;
             dec_scale := length (after_point s) |}
  else Raise (Exception (u "could not convert string to float: '" ++ s ++ u "'")).

(* ================================================================== *)
(** ** order_processor.py: the response-to-action extractor *)

Inductive action := add_to_cart_action | suggest_add_to_cart_action.

#[global] Instance action_eq_dec : EqDecision action.
Proof. solve_decision. Defined.

(** The two shapes of item dictionaries the extractor builds. *)
Inductive item_data :=
| directive_item (product_id : N) (quantity : N) (size : option str)
| cited_item (product_id : N) (product_name : str) (price : decimal) (quantity : N).

Definition item_product_id (item : item_data) : N :=
  match item with
  | directive_item pid _ _ => pid
  | cited_item pid _ _ _ => pid
  end.

(** [item.get("quantity", 1)] *)
Definition item_quantity (item : item_data) : N :=
  match item with
  | directive_item _ q _ => q
  | cited_item _ _ _ q => q
  end.

(** [item.get("size")] *)
Definition item_size (item : item_data) : option str :=
  match item with
  | directive_item _ _ sz => sz
  | cited_item _ _ _ _ => None
  end.

Record order_actions := {
  has_order_action : bool;
  action_type : option action;
  items : list item_data;
  instructions : list str
}.

Definition order_keywords : list str := List.map u [
  "add to your cart"; "would you like to add"; "shall I add"; "adding to cart";
  "successfully added"; "added to cart"; "item added"; "order confirmed";
  "perfect! adding"; "great choice! adding"; "excellent! i'll add"
]%string.

Definition response_confirmation_keywords : list str := List.map u [
  "yes, i'll add"; "absolutely! adding"; "sure thing! adding";
  "coming right up"; "perfect choice"; "great selection"
]%string.

Definition is_nil {A} (l : list A) : bool :=
  match l with [] => true | _ => false end.

Section Extractor.
Context {U : Unicode}.

(** One [(product_id, size, quantity)] tuple of [add_matches]. *)
Definition directive_of_match (m : list str) : item_data :=
  let product_id := nth 0 m [] in
  let size := nth 1 m [] in
  let quantity := nth 2 m [] in
  directive_item (int_of_digits product_id)
    (if is_nil quantity then 1 else int_of_digits quantity)
    (if is_nil size then None else Some (strip size)).

Definition instruction_of_match (m : list str) : str :=
  u "Add Product ID " ++ nth 0 m [] ++ u " to cart".

(** One [(product_name, product_id, price)] tuple of [product_matches]. *)
Definition cited_of_match (m : list str) : res item_data :=
  let product_name := nth 0 m [] in
  let product_id := nth 1 m [] in
  let price := nth 2 m [] in
  match float_of_price (remove_char 44 price) with
  | Raise e => Raise e
  | Ok p => Ok (cited_item (int_of_digits product_id) (strip product_name) p 1)
  end.

Definition extract_order_intent_from_response (response : str) : res order_actions :=
  let add_matches := findall true add_to_cart_pattern 3 response in
  let add_matches :=
    if is_nil add_matches then findall true add_to_cart_alt_pattern 3 response
    else add_matches in
  if negb (is_nil add_matches) then
    Ok {| has_order_action := true;
          action_type := Some add_to_cart_action;
          items := List.map directive_of_match add_matches;
          instructions := List.map instruction_of_match add_matches |}
  else
    let product_matches := findall false product_pattern 3 response in
    let is_order_context := any_in order_keywords (lower response) in
    let is_confirmation := any_in response_confirmation_keywords (lower response) in
    if negb (is_nil product_matches) && (is_order_context || is_confirmation) then
      match res_map cited_of_match product_matches with
      | Raise e => Raise e
      | Ok cited =>
        Ok {| has_order_action := true;
              action_type := Some suggest_add_to_cart_action;
              items := cited;
              instructions := [] |}
      end
    else
      Ok {| has_order_action := false; action_type := None;
            items := []; instructions := [] |}.
End Extractor.

(* ================================================================== *)
(** ** The cart, order and catalogue services

    [cart_service], [order_service] and [product_service] are objects the
    caller passes in, or [None].  A service is a record of operations on
    the state [W] of the outside world (the database); each operation
    returns or raises. *)

(** A row of [get_cart(...)["items"]]. *)
Record cart_item := {
  ci_product_id : Z;
  ci_quantity : Z;
  ci_unit_price : float;
  ci_total_price : float;
  ci_selected_size : option str;
  ci_product : option (option str);   (* item["product"], and its "name" *)
  ci_product_name : option str;       (* item["product_name"], older carts *)
  ci_customizations : option str;
  ci_notes : option str
}.

Record cart_data := {
  cart_items : list cart_item;
  total_items : Z;
  total_amount : float
}.

Record order_item := {
  oi_product_id : Z;
  oi_quantity : Z;
  oi_unit_price : float;
  oi_total_price : float;
  oi_selected_size : option str;
  oi_customizations : option str;
  oi_notes : option str
}.

Record order_data := {
  od_user_id : option Z;
  od_session_id : str;
  od_status : str;
  od_total_amount : float;
  od_tax_amount : float;
  od_discount_amount : Z;
  od_final_amount : float;
  od_payment_status : str;
  od_payment_method : str;
  od_notes : str;
  od_order_items : list order_item
}.

(** What [create_order] returns: the stored order. *)
Record created_order := { order_id_of : Z; order_number_of : str }.

Record product := { p_id : Z; p_name : option str; p_price : option float }.

Record CartService (W : Type) := {
  add_to_cart : str -> N -> N -> option str -> option Z -> M W (option cart_data);
  get_cart : str -> option Z -> M W (option cart_data);
  clear_cart : str -> option Z -> M W bool
}.
Arguments add_to_cart {W}.
Arguments get_cart {W}.
Arguments clear_cart {W}.

Record OrderService (W : Type) := {
  create_order : order_data -> M W (option created_order)
}.
Arguments create_order {W}.

Record ProductService (W : Type) := {
  get_products : str -> nat -> M W (option (list product));
  get_product_by_id : N -> M W (option product)
}.
Arguments get_products {W}.
Arguments get_product_by_id {W}.

(* ================================================================== *)
(** ** order_processor.py: the order processor *)

Record OrderItem := {
  item_product_id_ : Z;
  item_product_name_ : str;
  item_quantity_ : Z;
  item_unit_price_ : float;
  item_total_price_ : float;
  item_size_ : option str
}.

Record ChatOrder := {
  chat_session_id : str;
  chat_items : list OrderItem;
  chat_total_amount : float;
  chat_status : str
}.

(** The fields of an [OrderProcessor] object. *)
Record OrderProcessor := {
  db_service : option str;
  active_orders : gmap str ChatOrder
}.

(** [OrderProcessor.__init__] *)
Definition OrderProcessor_init (db : option str) : OrderProcessor :=
  {| db_service := db; active_orders := ∅ |}.

(** The store the methods run on: the processor object and the world
    its services act on. *)
Record store (W : Type) := { self : OrderProcessor; world : W }.
Arguments self {W}.
Arguments world {W}.
Arguments Build_store {W}.

(** A call into a service touches the world only. *)
Definition call {W A} (m : M W A) : M (store W) A :=
  fun st =>
    let (r, w') := m (world st) in
    (r, {| self := self st; world := w' |}).

Record added_item := {
  added_product_id : N;
  added_quantity : N;
  added_size : option str
}.

Record cart_action_result := {
  success : bool;
  message : str;
  cart_updated : bool;
  items_added : list added_item
}.

Record formatted_item := {
  fi_name : str;
  fi_id : Z;
  fi_quantity : Z;
  fi_size : option str;
  fi_price : float
}.

Inductive cart_summary :=
| summary_error (error : str)
| summary_empty (message : str)
| summary_items (items : list formatted_item) (item_count : Z) (total : float)
    (formatted_summary : str).

(** [cart_summary.get("empty", True)] *)
Definition summary_is_empty (c : cart_summary) : bool :=
  match c with
  | summary_items _ _ _ _ => false
  | _ => true
  end.

Inductive checkout_summary :=
| not_ready (message : str)
| ready (subtotal tax_amount total_amount : float) (item_count : Z)
    (items : list formatted_item) (checkout_message : str).

Record order_result := {
  or_success : bool;
  or_message : str;
  or_order_id : option Z;
  or_order_number : option str
}.

Record payment_option := { pm_id : str; pm_name : str; pm_description : str }.

Inductive stage := stage_summary | stage_payment_method | stage_completed.

Record checkout_result := {
  checkout_stage : stage;
  checkout_text : str;
  data_checkout_summary : option checkout_summary;
  data_payment_methods : option (list payment_option);
  data_order : option order_result
}.

Definition nl : str := [10].
Definition dq : str := [34].

(** Truth value of an optional string: [None] and the empty string are false. *)
Definition truthy (s : option str) : bool :=
  match s with
  | Some (_ :: _) => true
  | _ => false
  end.

Definition tax_rate : float := 0.18%float.

(** [for x in xs: acc = body(x, acc)] inside a [try]: the local [acc] as
    the loop left it, and the exception that ended the loop, if any. *)
Fixpoint for_each {S A X} (xs : list X) (body : X -> A -> M S A) (acc : A)
    (st : S) : A * option exn * S :=
  match xs with
  | [] => (acc, None, st)
  | x :: rest =>
    match body x acc st with
    | (Ok acc', st') => for_each rest body acc' st'
    | (Raise e, st') => (acc, Some e, st')
    end
  end.

Definition get_available_payment_methods : list payment_option := [
  {| pm_id := u "cash"; pm_name := u "Cash Payment";
     pm_description := u "Pay with cash at pickup/delivery" |};
  {| pm_id := u "card"; pm_name := u "Card Payment";
     pm_description := u "Credit/Debit card payment" |};
  {| pm_id := u "upi"; pm_name := u "UPI Payment";
     pm_description := u "Pay via UPI (PhonePe, GPay, Paytm)" |};
  {| pm_id := u "digital_wallet"; pm_name := u "Digital Wallet";
     pm_description := u "Paytm, Amazon Pay, etc." |}
].

Definition format_item_line (item : formatted_item) : str :=
  let size_info :=
    match fi_size item with
    | Some sz =>
      if negb (is_nil sz) && negb (str_eqb sz (u "Regular"))
      then u " (" ++ sz ++ u ")" else []
    | None => []
    end in
  u "- " ++ fi_name item ++ size_info ++ u " - Qty: " ++ str_of_Z (fi_quantity item)
    ++ u " - ₹" ++ format_2f (fi_price item).

Definition _format_cart_for_chat (items : list formatted_item) (total : float)
    (total_quantity : option Z) : str :=
  if is_nil items then u "Your cart is empty."
  else
    let total_line :=
      match total_quantity with
      | Some n => u "**Total Items**: " ++ str_of_Z n
      | None =>
        u "**Total Items**: "
          ++ str_of_Z (fold_left Z.add (List.map fi_quantity items) 0%Z)
      end in
    join nl ([u "**CURRENT CART:**"] ++ List.map format_item_line items
             ++ [nl ++ u "**Cart Total**: ₹" ++ format_2f total] ++ [total_line]).

Definition format_cart_item (item : cart_item) : formatted_item :=
  let product_name :=
    match ci_product item with
    | Some name => default (u "Unknown") name
    | None => default (u "Unknown") (ci_product_name item)
    end in
  {| fi_name := product_name;
     fi_id := ci_product_id item;
     fi_quantity := ci_quantity item;
     fi_size := ci_selected_size item;
     fi_price := ci_total_price item |}.

Definition order_item_of (item : cart_item) : order_item :=
  {| oi_product_id := ci_product_id item;
     oi_quantity := ci_quantity item;
     oi_unit_price := ci_unit_price item;
     oi_total_price := ci_total_price item;
     oi_selected_size := ci_selected_size item;
     oi_customizations := ci_customizations item;
     oi_notes := ci_notes item |}.

Definition checkout_message_of (subtotal tax_amount total_amount : float)
    (item_count : Z) : str :=
  nl ++ u "**ORDER SUMMARY**" ++ nl
  ++ u "Subtotal: ₹" ++ format_2f subtotal ++ nl
  ++ u "Tax (18%): ₹" ++ format_2f tax_amount ++ nl
  ++ u "**Total: ₹" ++ format_2f total_amount ++ u "**" ++ nl ++ nl
  ++ u "Items: " ++ str_of_Z item_count ++ nl ++ nl
  ++ u "Ready to place your order? Just say " ++ dq ++ u "checkout" ++ dq
  ++ u " or " ++ dq ++ u "place order" ++ dq
  ++ u " and I'll guide you through the payment process!" ++ nl.

Definition payment_options_text : str :=
  nl ++ nl ++ u "**PAYMENT OPTIONS:**" ++ nl
  ++ u "1. 💵 Cash Payment - Pay at pickup/delivery" ++ nl
  ++ u "2. 💳 Card Payment - Credit/Debit card" ++ nl
  ++ u "3. 📱 UPI Payment - PhonePe, GPay, Paytm" ++ nl
  ++ u "4. 💰 Digital Wallet - Paytm, Amazon Pay" ++ nl ++ nl
  ++ u "Please choose your payment method by saying something like:" ++ nl
  ++ dq ++ u "I'll pay with cash" ++ dq ++ u " or " ++ dq ++ u "UPI payment" ++ dq
  ++ u " or " ++ dq ++ u "Card payment" ++ dq ++ nl.

Definition order_confirmed_text (order_number payment_method_name : str)
    (total_amount : float) : str :=
  nl ++ u "🎉 **ORDER CONFIRMED!**" ++ nl ++ nl
  ++ u "**Order Number:** " ++ order_number ++ nl
  ++ u "**Payment Method:** " ++ payment_method_name ++ nl
  ++ u "**Total Amount:** ₹" ++ format_2f total_amount ++ nl ++ nl
  ++ u "Your order has been successfully placed! " ++ nl ++ nl
  ++ u "For cash payment: Have the exact amount ready at pickup/delivery" ++ nl
  ++ u "For card/UPI: You'll receive payment instructions shortly" ++ nl
  ++ u "For digital wallet: Check your app for payment request" ++ nl ++ nl
  ++ u "Thank you for your order! ☕️" ++ nl.

Section Processor.
Context {U : Unicode} {W : Type}.

Definition add_one (cs : CartService W) (session_id : str) (user_id : option Z)
    (item : item_data) (result : cart_action_result)
    : M (store W) cart_action_result :=
  cart_result <- call (add_to_cart cs session_id (item_product_id item)
                         (item_quantity item) (item_size item) user_id) ;;
  ret (match cart_result with
       | Some _ =>
         {| success := success result;
            message := message result;
            cart_updated := true;
            items_added := items_added result ++
              [{| added_product_id := item_product_id item;
                  added_quantity := item_quantity item;
                  added_size := item_size item |}] |}
       | None => result
       end).

Definition process_cart_action (session_id : str) (action_data : order_actions)
    (cart_service : option (CartService W)) (user_id : option Z)
    : M (store W) cart_action_result :=
  let result := {| success := false; message := []; cart_updated := false;
                   items_added := [] |} in
  match cart_service with
  | Some cs =>
    if negb (has_order_action action_data) then ret result
    else fun st =>
      let '(result, raised, st') :=
        for_each (items action_data) (add_one cs session_id user_id) result st in
      match raised with
      | None =>
        if cart_updated result then
          (Ok {| success := true;
                 message := u "Successfully added "
                   ++ str_of_N (N.of_nat (length (items_added result)))
                   ++ u " item(s) to your cart!";
                 cart_updated := cart_updated result;
                 items_added := items_added result |}, st')
        else
          (Ok {| success := success result;
                 message := u "No items were added to the cart.";
                 cart_updated := cart_updated result;
                 items_added := items_added result |}, st')
      | Some e =>
        (Ok {| success := success result;
               message := u "Sorry, there was an error adding items to your cart: "
                 ++ str_of_exn e;
               cart_updated := cart_updated result;
               items_added := items_added result |}, st')
      end
  | None => ret result
  end.

Definition empty_cart_summary : cart_summary :=
  summary_empty (u "Your cart is currently empty. Would you like to browse our menu?").

Definition get_cart_summary (session_id : str)
    (cart_service : option (CartService W)) (user_id : option Z)
    : M (store W) cart_summary :=
  match cart_service with
  | None => ret (summary_error (u "Cart service not available"))
  | Some cs =>
    try_except
      (cart_data <- call (get_cart cs session_id user_id) ;;
       match cart_data with
       | None => ret empty_cart_summary
       | Some cd =>
         if is_nil (cart_items cd) then ret empty_cart_summary
         else
           let formatted_items := List.map format_cart_item (cart_items cd) in
           ret (summary_items formatted_items (total_items cd) (total_amount cd)
                  (_format_cart_for_chat formatted_items (total_amount cd)
                     (Some (total_items cd))))
       end)
      (fun e => ret (summary_error (u "Error retrieving cart: " ++ str_of_exn e)))
  end.

Definition suggest_complementary_items (current_items : list formatted_item)
    (product_service : option (ProductService W)) : M (store W) (list product) :=
  match product_service with
  | None => ret []
  | Some ps =>
    if is_nil current_items then ret []
    else
      let has_coffee :=
        existsb (fun item => contains (u "coffee") (lower (fi_name item))) current_items in
      let has_pastry :=
        existsb (fun item =>
                   any_in (List.map u ["scone"; "croissant"; "pastry"]%string)
                          (lower (fi_name item))) current_items in
      suggestions <-
        try_except
          (s1 <- (if has_coffee && negb has_pastry then
                    pastry_products <- call (get_products ps (u "scone") 2%nat) ;;
                    ret (match pastry_products with
                         | Some (p :: ps') => take 2 (p :: ps')
                         | _ => []
                         end)
                  else ret []) ;;
           s2 <- (if has_pastry && negb has_coffee then
                    coffee_products <- call (get_products ps (u "latte") 2%nat) ;;
                    ret (match coffee_products with
                         | Some (p :: ps') => take 2 (p :: ps')
                         | _ => []
                         end)
                  else ret []) ;;
           ret (s1 ++ s2))
          (fun e => ret []) ;;
      ret (take 3 suggestions)
  end.

Definition create_checkout_summary (session_id : str)
    (cart_service : option (CartService W)) : M (store W) checkout_summary :=
  cart_summary <- get_cart_summary session_id cart_service None ;;
  match cart_summary with
  | summary_items items item_count total _ =>
    let subtotal := total in
    let tax_amount := (subtotal * tax_rate)%float in
    let total_amount := (subtotal + tax_amount)%float in
    ret (ready subtotal tax_amount total_amount item_count items
           (checkout_message_of subtotal tax_amount total_amount item_count))
  | _ => ret (not_ready (u "Your cart is empty. Add some items before checkout!"))
  end.

(** [order_data], as [save_chat_order_to_database] builds it from the cart. *)
Definition chat_order_data (session_id payment_method : str)
    (user_id : option Z) (notes : option str) (cart : cart_data) : order_data :=
  let subtotal := total_amount cart in
  let tax_amount := (subtotal * tax_rate)%float in
  let total_amount := (subtotal + tax_amount)%float in
  {| od_user_id := user_id;
     od_session_id := session_id;
     od_status := u "confirmed";
     od_total_amount := subtotal;
     od_tax_amount := tax_amount;
     od_discount_amount := 0;
     od_final_amount := total_amount;
     od_payment_status := u "pending";
     od_payment_method := payment_method;
     od_notes := (if truthy notes then u "Chat Order - " ++ default [] notes
                  else u "Chat Order");
     od_order_items := List.map order_item_of (cart_items cart) |}.

Definition order_failure (msg : str) : order_result :=
  {| or_success := false; or_message := msg; or_order_id := None;
     or_order_number := None |}.

Definition save_chat_order_to_database (session_id : str) (payment_method : str)
    (user_id : option Z) (cart_service : option (CartService W))
    (order_service : option (OrderService W)) (notes : option str)
    : M (store W) order_result :=
  match cart_service, order_service with
  | Some cs, Some os =>
    fun st =>
    match call (get_cart cs session_id user_id) st with
    | (Raise e, st1) =>
      (Ok (order_failure (u "Error creating order: " ++ str_of_exn e)), st1)
    | (Ok cart_data, st1) =>
      if match cart_data with Some cd => is_nil (cart_items cd) | None => true end
      then (Ok (order_failure (u "Cart is empty. Cannot create order.")), st1)
      else
        let order_data :=
          chat_order_data session_id payment_method user_id notes
            (default {| cart_items := []; total_items := 0; total_amount := 0 |}
                     cart_data) in
        match call (create_order os order_data) st1 with
        | (Raise e, st2) =>
          (Ok (order_failure (u "Error creating order: " ++ str_of_exn e)), st2)
        | (Ok None, st2) =>
          (Ok (order_failure (u "Failed to create order in database")), st2)
        | (Ok (Some created_order), st2) =>
          let result :=
            {| or_success := true;
               or_message := u "Order " ++ order_number_of created_order
                               ++ u " created successfully!";
               or_order_id := Some (order_id_of created_order);
               or_order_number := Some (order_number_of created_order) |} in
          match call (clear_cart cs session_id user_id) st2 with
          | (Ok _, st3) => (Ok result, st3)
          | (Raise e, st3) =>
            (Ok {| or_success := or_success result;
                   or_message := u "Error creating order: " ++ str_of_exn e;
                   or_order_id := or_order_id result;
                   or_order_number := or_order_number result |}, st3)
          end
        end
    end
  | _, _ => ret (order_failure (u "Required services not available"))
  end.

Definition process_checkout_request (session_id : str) (payment_method : option str)
    (user_id : option Z) (cart_service : option (CartService W))
    (order_service : option (OrderService W)) : M (store W) checkout_result :=
  checkout_summary <- create_checkout_summary session_id cart_service ;;
  match checkout_summary with
  | not_ready msg =>
    ret {| checkout_stage := stage_summary; checkout_text := msg;
           data_checkout_summary := None; data_payment_methods := None;
           data_order := None |}
  | ready _ _ total_amount _ _ checkout_message =>
    match payment_method with
    | Some ((_ :: _) as method) =>
      let valid_methods := List.map pm_id get_available_payment_methods in
      if negb (existsb (str_eqb method) valid_methods) then
        ret {| checkout_stage := stage_summary;
               checkout_text := u "Invalid payment method. Please choose from: "
                                  ++ join (u ", ") valid_methods;
               data_checkout_summary := None; data_payment_methods := None;
               data_order := None |}
      else
        order_result <- save_chat_order_to_database session_id method user_id
                          cart_service order_service
                          (Some (u "Conversational Order via Chat")) ;;
        if or_success order_result then
          let payment_method_name :=
            match List.find (fun pm => str_eqb (pm_id pm) method)
                            get_available_payment_methods with
            | Some pm => pm_name pm
            | None => method
            end in
          ret {| checkout_stage := stage_completed;
                 checkout_text := order_confirmed_text
                                    (default (u "None") (or_order_number order_result))
                                    payment_method_name total_amount;
                 data_checkout_summary := None; data_payment_methods := None;
                 data_order := Some order_result |}
        else
          ret {| checkout_stage := stage_summary;
                 checkout_text := u "Sorry, there was an error processing your order: "
                                    ++ or_message order_result;
                 data_checkout_summary := None; data_payment_methods := None;
                 data_order := None |}
    | _ =>
      ret {| checkout_stage := stage_payment_method;
             checkout_text := nl ++ checkout_message ++ payment_options_text;
             data_checkout_summary := Some checkout_summary;
             data_payment_methods := Some get_available_payment_methods;
             data_order := None |}
    end
  end.
End Processor.

(* ================================================================== *)
(** ** llm_utils.py: assembling the context *)

Record chat_message := { role : str; content : str }.

(** [l[-n:]] *)
Definition last_n {A} (n : nat) (l : list A) : list A := drop (length l - n) l.

Definition confirmation_words : list str := List.map u
  ["yes"; "yeah"; "yep"; "sure"; "okay"; "ok"; "add it"; "add that"; "take it"]%string.

Definition reference_words : list str := List.map u
  ["it"; "that"; "this"; "the item"; "the product"]%string.

Definition format_rag_context (retrieved_docs : list str)
    (chat_context product_context : str) : str :=
  join nl
    ((if is_nil retrieved_docs then [] else u "Retrieved Information:" :: retrieved_docs)
     ++ (if is_nil chat_context then []
         else [nl ++ u "Previous Conversation:"; chat_context])
     ++ (if is_nil product_context then []
         else [nl ++ u "Product Information:"; product_context])).

Definition get_chat_history_context (chat_history : list chat_message)
    (limit : nat) : str :=
  if is_nil chat_history then []
  else
    let recent_messages :=
      if (limit <? length chat_history)%nat then last_n limit chat_history
      else chat_history in
    join nl
      (u "Recent Conversation History:" ::
       flat_map (fun message =>
                   if str_eqb (role message) (u "user")
                   then [u "Customer: " ++ content message]
                   else if str_eqb (role message) (u "assistant")
                   then [u "Assistant: " ++ content message]
                   else [])
                recent_messages).

Section ContextAssembly.
Context {U : Unicode}.

(** The scan of [resolve_product_reference], most recent message first. *)
Fixpoint first_reference (messages : list chat_message) : str :=
  match messages with
  | [] => []
  | message :: older =>
    if str_eqb (role message) (u "assistant") then
      let product_matches := findall false product_pattern 3 (content message) in
      let cart_matches := findall false cart_pattern 1 (content message) in
      if negb (is_nil product_matches) || negb (is_nil cart_matches) then
        join nl
          ([u "Referenced Product from Previous Message:"]
           ++ List.map (fun m => u "- " ++ strip (nth 0 m []) ++ u " (ID: "
                                   ++ nth 1 m [] ++ u ") - ₹" ++ nth 2 m [])
                       product_matches
           ++ List.map (fun m => u "- Previous cart instruction for Product ID: "
                                   ++ nth 0 m [])
                       cart_matches)
      else first_reference older
    else first_reference older
  end.

Definition resolve_product_reference (query : str)
    (chat_history : list chat_message) : str :=
  if is_nil chat_history then []
  else
    let query_lower := lower query in
    let is_confirmation := any_in confirmation_words query_lower in
    let has_reference := any_in reference_words query_lower in
    if is_confirmation || has_reference
    then first_reference (rev (last_n 5 chat_history))
    else [].
End ContextAssembly.

(* ================================================================== *)
(** ** rag.py: the orchestrator *)

Record document := { page_content : str; metadata_product_id : option str }.

(** [s.split('\n')] *)
Fixpoint split_lines_from (s : str) (line : str) : list str :=
  match s with
  | [] => [rev line]
  | c :: r => if c =? 10 then rev line :: split_lines_from r []
              else split_lines_from r (c :: line)
  end.

(** The collaborators of [generate_response] that are taken as given:
    the retriever and the generation backend of the [RAGSystem] object,
    the [OrderService()] it constructs, and the functions
    [get_specialized_prompt] and [format_sales_response] of llm_utils.py,
    the latter with its result left abstract. *)
Record Collaborators (W X : Type) := {
  get_relevant_documents : str -> M W (list document);
  _call_llm_with_prompt : str -> M W str;
  OrderService_new : OrderService W;
  get_specialized_prompt : intent -> str -> str -> str;
  format_sales_response : str -> intent -> option (ProductService W) -> M W X
}.
Arguments get_relevant_documents {W X}.
Arguments _call_llm_with_prompt {W X}.
Arguments OrderService_new {W X}.
Arguments get_specialized_prompt {W X}.
Arguments format_sales_response {W X}.

Record cart_product := {
  cp_id : N;
  cp_name : str;
  cp_quantity : N;
  cp_size : option str;
  cp_price : option float;
  cp_action : option action
}.

Inductive products (X : Type) :=
| products_list (l : list cart_product)
| products_of_sales (x : X).
Arguments products_list {X}.
Arguments products_of_sales {X}.

Inductive metadata (X : Type) :=
| metadata_empty
| metadata_cart (cart_data : cart_summary)
| metadata_checkout (checkout_data : checkout_result)
| metadata_cart_action (a : option action)
| metadata_of_sales (x : X).
Arguments metadata_empty {X}.
Arguments metadata_cart {X}.
Arguments metadata_checkout {X}.
Arguments metadata_cart_action {X}.
Arguments metadata_of_sales {X}.

Inductive order_processing :=
| no_order_action
| order_action (a : option action) (cart_result : cart_action_result)
    (items_processed : list item_data)
| cart_action (summary : cart_summary)
| checkout_action (result : checkout_result)
| payment_action (method : str) (result : checkout_result)
| processing_error (error : str).

Record response (X : Type) := mk_response {
  response_text : str;
  response_intent : intent;
  agent : str;
  sources : list str;
  context : str;
  response_products : products X;
  response_metadata : metadata X;
  chat_history_used : bool;
  product_context_used : bool;
  processing : order_processing
}.
Arguments mk_response {X}.
Arguments response_text {X}.
Arguments response_intent {X}.
Arguments agent {X}.
Arguments sources {X}.
Arguments context {X}.
Arguments response_products {X}.
Arguments response_metadata {X}.
Arguments chat_history_used {X}.
Arguments product_context_used {X}.
Arguments processing {X}.

Definition cart_actions_text : str :=
  nl ++ nl ++ u "🛒 **Cart Actions Available:**"
  ++ nl ++ u "- Say 'remove [item]' to delete items"
  ++ nl ++ u "- Say 'checkout' or 'place order' to proceed"
  ++ nl ++ u "- Say 'add more' to continue shopping".

Definition whats_next_text : str :=
  nl ++ nl ++ u "🛒 **What's next?**"
  ++ nl ++ u "- Say 'checkout' to place your order"
  ++ nl ++ u "- Ask for more products to continue shopping"
  ++ nl ++ u "- Say 'remove [item]' to modify your cart".

Definition suggest_prompt_text : str :=
  nl ++ nl ++ u "🛒 Would you like me to add this to your cart? Just say 'yes' or 'add it'!".

Definition apology_text : str :=
  u "I apologize, but I'm having trouble processing your request right now. Please try again.".

Definition present {A} (o : option A) : bool :=
  match o with Some _ => true | None => false end.

Section Orchestrator.
Context {U : Unicode} {W X : Type}.
Variable rag : Collaborators W X.

Definition content_with_product_id (doc : document) : str :=
  match metadata_product_id doc with
  | Some product_id =>
    match split_lines_from (page_content doc) [] with
    | first :: rest => join nl (first :: (u "Product ID: " ++ product_id) :: rest)
    | [] => page_content doc
    end
  | None => page_content doc
  end.

Definition retrieve_relevant_documents (query : str) : M (store W) (list str) :=
  try_except
    (documents <- call (get_relevant_documents rag query) ;;
     ret (List.map content_with_product_id documents))
    (fun e => ret []).

(** [item.get("size", "")] *)
Definition item_size_or_empty (item : item_data) : option str :=
  match item with
  | directive_item _ _ sz => sz
  | cited_item _ _ _ _ => Some []
  end.

(** The processed items as products, step 12 of [generate_response]. *)
Fixpoint cart_products_of (product_service : option (ProductService W))
    (a : option action) (processed_items : list item_data)
    : M (store W) (list cart_product) :=
  match processed_items with
  | [] => ret []
  | item :: rest =>
    entry <-
      match product_service with
      | None => ret []
      | Some ps =>
        try_except
          (product_details <- call (get_product_by_id ps (item_product_id item)) ;;
           ret (match product_details with
                | Some d =>
                  [{| cp_id := item_product_id item;
                      cp_name := default (u "Unknown Product") (p_name d);
                      cp_quantity := item_quantity item;
                      cp_size := item_size_or_empty item;
                      cp_price := Some (default 0%float (p_price d));
                      cp_action := a |}]
                | None => []
                end))
          (fun e =>
             ret [{| cp_id := item_product_id item;
                     cp_name := u "Product " ++ str_of_N (item_product_id item);
                     cp_quantity := item_quantity item;
                     cp_size := item_size_or_empty item;
                     cp_price := None;
                     cp_action := a |}])
      end ;;
    others <- cart_products_of product_service a rest ;;
    ret (entry ++ others)
  end.

(** Step 2: the cart is shown directly. *)
Definition cart_branch (i : intent) (session_id : str)
    (cart_service : option (CartService W)) (user_id : option Z)
    : M (store W) (response X) :=
  cart_summary <- get_cart_summary session_id cart_service user_id ;;
  let response_text :=
    match cart_summary with
    | summary_items _ _ _ formatted_summary => formatted_summary ++ cart_actions_text
    | summary_empty msg => msg
    | summary_error _ => u "Your cart is empty."
    end in
  ret {| response_text := response_text;
         response_intent := i;
         agent := get_agent_name i;
         sources := [];
         context := [];
         response_products := products_list [];
         response_metadata := metadata_cart cart_summary;
         chat_history_used := false;
         product_context_used := false;
         processing := cart_action cart_summary |}.

(** Steps 2b and 2d: the checkout flow, without or with a payment method. *)
Definition checkout_branch (i : intent) (session_id : str)
    (payment : option (option str)) (cart_service : option (CartService W))
    : M (store W) (response X) :=
  checkout_result <-
    process_checkout_request session_id (default None payment) None cart_service
      (Some (OrderService_new rag)) ;;
  ret {| response_text := checkout_text checkout_result;
         response_intent := i;
         agent := get_agent_name i;
         sources := [];
         context := [];
         response_products := products_list [];
         response_metadata := metadata_checkout checkout_result;
         chat_history_used := false;
         product_context_used := false;
         processing :=
           match payment with
           | Some method => payment_action (default [] method) checkout_result
           | None => checkout_action checkout_result
           end |}.

(** Step 11: the actions found in the generated reply are carried out. *)
Definition process_order_actions (i : intent) (reply : str)
    (session_id : option str) (cart_service : option (CartService W))
    (user_id : option Z) : M (store W) (str * order_processing * bool) :=
  if (bool_decide (i = order_taking) || bool_decide (i = sales))
     && truthy session_id && present cart_service
  then
    let sid := default [] session_id in
    order_actions <- of_res (extract_order_intent_from_response reply) ;;
    if has_order_action order_actions then
      cart_result <- process_cart_action sid order_actions cart_service user_id ;;
      let order_processing_result :=
        order_action (action_type order_actions) cart_result (items order_actions) in
      if success cart_result then
        updated_cart <- get_cart_summary sid cart_service user_id ;;
        ret (u "✅ **" ++ message cart_result ++ u "**"
             ++ match updated_cart with
                | summary_items _ _ _ formatted_summary => nl ++ nl ++ formatted_summary
                | _ => []
                end
             ++ whats_next_text,
             order_processing_result, true)
      else if bool_decide (action_type order_actions = Some suggest_add_to_cart_action)
      then ret (reply ++ suggest_prompt_text, order_processing_result, true)
      else ret (reply, order_processing_result, true)
    else ret (reply, no_order_action, false)
  else ret (reply, no_order_action, false).

(** Step 12: the products shown with the reply. *)
Definition format_products (i : intent) (reply : str)
    (order_processing_result : order_processing) (cart_action_happened : bool)
    (product_service : option (ProductService W))
    : M (store W) (products X * metadata X) :=
  try_except
    (if (bool_decide (i = sales) || bool_decide (i = general))
        && negb cart_action_happened
     then
       x <- call (format_sales_response rag reply i product_service) ;;
       ret (products_of_sales x, metadata_of_sales x)
     else
       match cart_action_happened, order_processing_result with
       | true, order_action a _ processed_items =>
         cart_products <- cart_products_of product_service a processed_items ;;
         ret (products_list cart_products, metadata_cart_action a)
       | _, _ => ret (products_list [], metadata_empty)
       end)
    (fun e => ret (products_list [], metadata_empty)).

(** Steps 3 to 13: context, prompt, generation, actions, formatting. *)
Definition generation_flow (i : intent) (query : str)
    (chat_history : list chat_message) (session_id : option str)
    (cart_service : option (CartService W))
    (product_service : option (ProductService W)) (user_id : option Z)
    : M (store W) (response X) :=
  let use_chat_history := should_use_chat_history query i in
  let use_product_resolution := should_resolve_product_context query i in
  retrieved_docs <- retrieve_relevant_documents query ;;
  let chat_context :=
    if use_chat_history then get_chat_history_context chat_history 5 else [] in
  let product_context :=
    if use_product_resolution then resolve_product_reference query chat_history
    else [] in
  let formatted_context := format_rag_context retrieved_docs chat_context product_context in
  let specialized_prompt := get_specialized_prompt rag i formatted_context query in
  reply <- call (_call_llm_with_prompt rag specialized_prompt) ;;
  acted <- process_order_actions i reply session_id cart_service user_id ;;
  let '(reply, order_processing_result, cart_action_happened) := acted in
  formatted_response <-
    format_products i reply order_processing_result cart_action_happened product_service ;;
  ret {| response_text := reply;
         response_intent := i;
         agent := get_agent_name i;
         sources := retrieved_docs;
         context := formatted_context;
         response_products := fst formatted_response;
         response_metadata := snd formatted_response;
         chat_history_used := use_chat_history;
         product_context_used := use_product_resolution;
         processing := order_processing_result |}.

Definition error_response (e : exn) : response X :=
  {| response_text := apology_text;
     response_intent := error;
     agent := u "System";
     sources := [];
     context := [];
     response_products := products_list [];
     response_metadata := metadata_empty;
     chat_history_used := false;
     product_context_used := false;
     processing := processing_error (str_of_exn e) |}.

Definition generate_response (query : str) (chat_history : list chat_message)
    (session_id : option str) (cart_service : option (CartService W))
    (product_service : option (ProductService W)) (user_id : option Z)
    : M (store W) (response X) :=
  try_except
    (let i := classify_intent query in
     if bool_decide (i = cart_management) && present cart_service && truthy session_id
     then cart_branch i (default [] session_id) cart_service user_id
     else if bool_decide (i = checkout) && present cart_service && truthy session_id
     then checkout_branch i (default [] session_id) None cart_service
     else
       let i := if bool_decide (i = confirmation) && truthy session_id
                then sales else i in
       if bool_decide (i = payment_method) && present cart_service && truthy session_id
       then checkout_branch i (default [] session_id)
              (Some (extract_payment_method query)) cart_service
       else generation_flow i query chat_history session_id cart_service
              product_service user_id)
    (fun e => ret (error_response e)).
End Orchestrator.

(* ================================================================== *)
(** ** An in-memory shop

    A stand-in for the services of database/db_service.py, used to run
    the model: [CartService] and [OrderService] on what their callers
    observe, with one active cart per user, and a generation backend that
    records the prompts it receives and answers with a scripted reply. *)

Record shop := {
  shop_products : list (N * (str * float));   (* id, name, retail_price *)
  shop_cart_items : list (Z * cart_item);     (* owner, row; newest first *)
  shop_orders : list order_data;
  shop_prompts : list str;
  shop_reply : str
}.

Definition float_of_Z (z : Z) : float :=
  match z with
  | Zneg p => PrimFloat.opp (PrimFloat.of_uint63 (Uint63.of_Z (Zpos p)))
  | _ => PrimFloat.of_uint63 (Uint63.of_Z z)
  end.

Definition shop_with_cart (w : shop) (rows : list (Z * cart_item)) : shop :=
  {| shop_products := shop_products w; shop_cart_items := rows;
     shop_orders := shop_orders w; shop_prompts := shop_prompts w;
     shop_reply := shop_reply w |}.

Definition cart_of (w : shop) (user : Z) : list cart_item :=
  List.map snd (List.filter (fun row => (fst row =? user)%Z) (shop_cart_items w)).

(** [if not user_id] *)
Definition no_user (user_id : option Z) : bool :=
  match user_id with
  | Some uid => (uid =? 0)%Z
  | None => true
  end.

Definition shop_get_cart (session_id : str) (user_id : option Z)
    : M shop (option cart_data) :=
  fun w =>
    if no_user user_id
    then (Ok (Some {| cart_items := []; total_items := 0; total_amount := 0 |}), w)
    else
      let rows := cart_of w (default 0%Z user_id) in
      (Ok (Some {| cart_items := rows;
                   total_items := fold_left Z.add (List.map ci_quantity rows) 0%Z;
                   total_amount := fold_left PrimFloat.add
                                     (List.map ci_total_price rows) 0%float |}), w).

Definition same_line (pid : N) (size : option str) (user : Z)
    (row : Z * cart_item) : bool :=
  (fst row =? user)%Z && (ci_product_id (snd row) =? Z.of_N pid)%Z
  && bool_decide (ci_selected_size (snd row) = size).

Definition shop_add_to_cart (session_id : str) (product_id quantity : N)
    (selected_size : option str) (user_id : option Z) : M shop (option cart_data) :=
  fun w =>
    if no_user user_id
    then (Raise (Exception (u "User ID is required for cart operations")), w)
    else
      let user := default 0%Z user_id in
      match List.find (fun p => fst p =? product_id) (shop_products w) with
      | None =>
        (Raise (Exception (u "Product with ID " ++ str_of_N product_id ++ u " not found")), w)
      | Some (_, (name, unit_price)) =>
        let rows := shop_cart_items w in
        let rows' :=
          if existsb (same_line product_id selected_size user) rows then
            List.map (fun row =>
              if same_line product_id selected_size user row then
                let new_quantity := (ci_quantity (snd row) + Z.of_N quantity)%Z in
                (fst row,
                 {| ci_product_id := ci_product_id (snd row);
                    ci_quantity := new_quantity;
                    ci_unit_price := ci_unit_price (snd row);
                    ci_total_price := (unit_price * float_of_Z new_quantity)%float;
                    ci_selected_size := ci_selected_size (snd row);
                    ci_product := ci_product (snd row);
                    ci_product_name := ci_product_name (snd row);
                    ci_customizations := ci_customizations (snd row);
                    ci_notes := ci_notes (snd row) |})
              else row) rows
          else
            (user,
             {| ci_product_id := Z.of_N product_id;
                ci_quantity := Z.of_N quantity;
                ci_unit_price := unit_price;
                ci_total_price := (unit_price * float_of_Z (Z.of_N quantity))%float;
                ci_selected_size := selected_size;
                ci_product := Some (Some name);
                ci_product_name := None;
                ci_customizations := None;
                ci_notes := None |}) :: rows in
        shop_get_cart session_id user_id (shop_with_cart w rows')
      end.

Definition shop_clear_cart (session_id : str) (user_id : option Z) : M shop bool :=
  fun w =>
    if no_user user_id then (Ok false, w)
    else
      let user := default 0%Z user_id in
      (Ok (negb (is_nil (cart_of w user))),
       shop_with_cart w (List.filter (fun row => negb (fst row =? user)%Z)
                                     (shop_cart_items w))).

Definition shop_cart_service : CartService shop :=
  {| add_to_cart := shop_add_to_cart;
     get_cart := shop_get_cart;
     clear_cart := shop_clear_cart |}.

Definition shop_create_order (order : order_data) : M shop (option created_order) :=
  fun w =>
    let number := Z.of_nat (S (length (shop_orders w))) in
    (Ok (Some {| order_id_of := number;
                 order_number_of := u "ORD-" ++ str_of_Z number |}),
     {| shop_products := shop_products w; shop_cart_items := shop_cart_items w;
        shop_orders := shop_orders w ++ [order]; shop_prompts := shop_prompts w;
        shop_reply := shop_reply w |}).

Definition shop_order_service : OrderService shop :=
  {| create_order := shop_create_order |}.


Definition refusing_order_service : OrderService shop :=
  {| create_order := fun _ => ret None |}.


Definition shop_llm (prompt : str) : M shop str :=
  fun w =>
    (Ok (shop_reply w),
     {| shop_products := shop_products w; shop_cart_items := shop_cart_items w;
        shop_orders := shop_orders w; shop_prompts := shop_prompts w ++ [prompt];
        shop_reply := shop_reply w |}).

Definition shop_rag : Collaborators shop unit :=
  {| get_relevant_documents := fun _ => ret [];
     _call_llm_with_prompt := shop_llm;
     OrderService_new := shop_order_service;
     get_specialized_prompt := fun _ context query => context ++ nl ++ query;
     format_sales_response := fun _ _ _ => ret tt |}.

Definition shop_product_service : ProductService shop :=
  {| get_products := fun _ _ => ret (Some []);
     get_product_by_id := fun pid w =>
       (Ok (match List.find (fun p => fst p =? pid) (shop_products w) with
            | Some (_, (name, price)) =>
              (* a product row has a retail_price and no "price" *)
              Some {| p_id := Z.of_N pid; p_name := Some name; p_price := None |}
            | None => None
            end), w) |}.

Definition demo_shop (reply : str) : shop :=
  {| shop_products := [(8, (u "Civet Cat", 3757.5%float));
                       (1, (u "Brazilian - Organic", 1503%float))];
     shop_cart_items := [];
     shop_orders := [];
     shop_prompts := [];
     shop_reply := reply |}.


Definition demo_store (reply : str) : store shop :=
  {| self := OrderProcessor_init None; world := demo_shop reply |}.

(* ================================================================== *)
(** ** Vocabulary of the properties *)

Definition added_of (item : item_data) : added_item :=
  {| added_product_id := item_product_id item;
     added_quantity := item_quantity item;
     added_size := item_size item |}.

(** What the cart backend does with a list of items, asked to add them
    one after the other until a call raises: the items it added, the
    exception that stopped the run, if any, and the world it leaves. *)
Inductive backend_adds {W} (cs : CartService W) (session_id : str)
    (user_id : option Z)
    : list item_data -> W -> list added_item -> option exn -> W -> Prop :=
| adds_done w :
    backend_adds cs session_id user_id [] w [] None w
| adds_added item rest w cart w1 added raised w2 :
    add_to_cart cs session_id (item_product_id item) (item_quantity item)
      (item_size item) user_id w = (Ok (Some cart), w1) ->
    backend_adds cs session_id user_id rest w1 added raised w2 ->
    backend_adds cs session_id user_id (item :: rest) w
      (added_of item :: added) raised w2
| adds_refused item rest w w1 added raised w2 :
    add_to_cart cs session_id (item_product_id item) (item_quantity item)
      (item_size item) user_id w = (Ok None, w1) ->
    backend_adds cs session_id user_id rest w1 added raised w2 ->
    backend_adds cs session_id user_id (item :: rest) w added raised w2
| adds_raised item rest w e w1 :
    add_to_cart cs session_id (item_product_id item) (item_quantity item)
      (item_size item) user_id w = (Raise e, w1) ->
    backend_adds cs session_id user_id (item :: rest) w [] (Some e) w1.

(** The operations of the order processor, as calls with their arguments,
    and the orchestrator's [generate_response], which runs on the same
    processor object. *)
Inductive operation (W X : Type) :=
| call_extract_order_intent_from_response (response : str)
| call_process_cart_action (session_id : str) (action_data : order_actions)
    (cart_service : option (CartService W)) (user_id : option Z)
| call_get_cart_summary (session_id : str)
    (cart_service : option (CartService W)) (user_id : option Z)
| call_format_cart_for_chat (items : list formatted_item) (total : float)
    (total_quantity : option Z)
| call_suggest_complementary_items (current_items : list formatted_item)
    (product_service : option (ProductService W))
| call_create_checkout_summary (session_id : str)
    (cart_service : option (CartService W))
| call_save_chat_order_to_database (session_id payment_method : str)
    (user_id : option Z) (cart_service : option (CartService W))
    (order_service : option (OrderService W)) (notes : option str)
| call_get_available_payment_methods
| call_process_checkout_request (session_id : str) (payment_method : option str)
    (user_id : option Z) (cart_service : option (CartService W))
    (order_service : option (OrderService W))
| call_generate_response (rag : Collaborators W X) (query : str)
    (chat_history : list chat_message) (session_id : option str)
    (cart_service : option (CartService W))
    (product_service : option (ProductService W)) (user_id : option Z).
Arguments call_extract_order_intent_from_response {W X}.
Arguments call_process_cart_action {W X}.
Arguments call_get_cart_summary {W X}.
Arguments call_format_cart_for_chat {W X}.
Arguments call_suggest_complementary_items {W X}.
Arguments call_create_checkout_summary {W X}.
Arguments call_save_chat_order_to_database {W X}.
Arguments call_get_available_payment_methods {W X}.
Arguments call_process_checkout_request {W X}.
Arguments call_generate_response {W X}.

Section Operations.
Context {U : Unicode} {W X : Type}.

(** The store after an operation, its result dropped. *)
Definition perform (op : operation W X) (st : store W) : store W :=
  match op with
  | call_extract_order_intent_from_response response =>
    snd (of_res (extract_order_intent_from_response response) st)
  | call_process_cart_action session_id action_data cart_service user_id =>
    snd (process_cart_action session_id action_data cart_service user_id st)
  | call_get_cart_summary session_id cart_service user_id =>
    snd (get_cart_summary session_id cart_service user_id st)
  | call_format_cart_for_chat items total total_quantity =>
    snd (ret (_format_cart_for_chat items total total_quantity) st)
  | call_suggest_complementary_items current_items product_service =>
    snd (suggest_complementary_items current_items product_service st)
  | call_create_checkout_summary session_id cart_service =>
    snd (create_checkout_summary session_id cart_service st)
  | call_save_chat_order_to_database session_id method user_id
      cart_service order_service notes =>
    snd (save_chat_order_to_database session_id method user_id
           cart_service order_service notes st)
  | call_get_available_payment_methods =>
    snd (ret get_available_payment_methods st)
  | call_process_checkout_request session_id method user_id
      cart_service order_service =>
    snd (process_checkout_request session_id method user_id
           cart_service order_service st)
  | call_generate_response rag query chat_history session_id cart_service
      product_service user_id =>
    snd (generate_response rag query chat_history session_id cart_service
           product_service user_id st)
  end.

Definition perform_all (ops : list (operation W X)) (st : store W) : store W :=
  fold_left (fun st op => perform op st) ops st.
End Operations.

(** A computation that leaves the processor object as it found it. *)
Definition keeps_self {W A} (m : M (store W) A) : Prop :=
  forall st, self (snd (m st)) = self st.

(** The text of ADD TO CART directives, as the extractor's patterns read
    it: literals up to case, white space where the pattern has [\s*],
    numbers where it has [\d+]. *)
Abbreviation cart_glyph := 128722%N (only parsing).   (* 🛒 *)
Abbreviation capital_a := 65%N (only parsing).        (* A *)
Abbreviation comma_char := 44%N (only parsing).       (* , *)

Section DirectiveText.
Context {U : Unicode}.

(** [s] reads as the literal [p] when case is ignored. *)
Definition reads_as (p s : str) : Prop :=
  Forall2 (fun a c => casefold a = casefold c) p s.

Definition blank (s : str) : Prop := Forall (fun c => isspace c = true) s.

Definition number (s : str) : Prop :=
  s <> [] /\ Forall (fun c => isdecimal c = true) s.

(** No character of [s] reads as the character [p]. *)
Definition free_of (p : char) (s : str) : Prop :=
  Forall (fun c => casefold p <> casefold c) s.

(** [s] is empty or begins with a character that [f] rejects. *)
Definition begins_off (f : char -> bool) (s : str) : Prop :=
  match s with
  | [] => True
  | c :: _ => f c = false
  end.

(** [, Size: <text>], with the size it stands for. *)
Inductive size_part : str -> option str -> Prop :=
| size_absent : size_part [] None
| size_present comma ws1 kw ws2 text :
    reads_as (u ",") comma -> blank ws1 -> reads_as (u "Size:") kw -> blank ws2 ->
    text <> [] -> free_of comma_char text -> begins_off isspace text ->
    size_part (comma ++ ws1 ++ kw ++ ws2 ++ text) (Some (strip text)).

(** [, Quantity: <int>], with the quantity it stands for: 1 when absent. *)
Inductive quantity_part : str -> N -> Prop :=
| quantity_absent : quantity_part [] 1
| quantity_present comma ws1 kw ws2 digits :
    reads_as (u ",") comma -> blank ws1 -> reads_as (u "Quantity:") kw -> blank ws2 ->
    number digits ->
    quantity_part (comma ++ ws1 ++ kw ++ ws2 ++ digits) (int_of_digits digits).

(** [Product ID <int>[, Size: <text>][, Quantity: <int>]], after the
    opening of the directive; [size_last] tells that the text ends with
    a Size field. *)
Inductive fields_text : str -> item_data -> str -> bool -> Prop :=
| fields_intro ws1 kw ws2 pid sz size q quantity :
    blank ws1 -> reads_as (u "Product ID") kw -> blank ws2 -> number pid ->
    size_part sz size -> quantity_part q quantity ->
    fields_text (ws1 ++ kw ++ ws2 ++ pid ++ sz ++ q)
      (directive_item (int_of_digits pid) quantity size) pid
      (negb (is_nil sz) && is_nil q).

(** The opening with the glyph, [🛒 **ADD TO CART**:], and the plain
    one, [ADD TO CART:]. *)
Definition glyph_opening (o : str) : Prop :=
  exists glyph ws kw,
    o = glyph ++ ws ++ kw
    /\ reads_as (u "🛒") glyph /\ blank ws /\ reads_as (u "**ADD TO CART**:") kw.

Definition plain_opening (o : str) : Prop := reads_as (u "ADD TO CART:") o.

(** A message made of directives: each directive is preceded by text in
    which no character reads as [p0], the first character of the
    opening; the text after a directive does not begin with a digit or a
    comma; and a directive that ends with a Size field ends the message.
    With the message come the items of its directives and their product
    ids as written. *)
Inductive directive_message (opening : str -> Prop) (p0 : char)
    : str -> list item_data -> list str -> Prop :=
| message_end before :
    free_of p0 before ->
    directive_message opening p0 before [] []
| message_directive before o f item pid size_last rest items pids :
    free_of p0 before ->
    opening o ->
    fields_text f item pid size_last ->
    begins_off isdecimal rest ->
    begins_off (fun c => casefold comma_char =? casefold c) rest ->
    (size_last = true -> rest = []) ->
    directive_message opening p0 rest items pids ->
    directive_message opening p0 (before ++ o ++ f ++ rest) (item :: items) (pid :: pids).
End DirectiveText.

(** The continuation that ends a match. *)
Definition accept : str -> captures -> option (str * captures) :=
  fun s c => Some (s, c).

(* ================================================================== *)
(** * Properties *)

(** ** Text *)

Lemma any_in_spec (keywords : list str) (text : str) :
  any_in keywords text = true <->
  exists keyword, In keyword keywords /\ contains keyword text = true.
Proof. unfold any_in. apply existsb_exists. Qed.

Lemma any_in_false (keywords : list str) (text : str) :
  any_in keywords text = false <->
  forall keyword, In keyword keywords -> contains keyword text = false.
Proof.
  unfold any_in. rewrite <- not_true_iff_false, existsb_exists. split.
  - intros H keyword Hin. apply not_true_is_false. intros Hc. apply H. eauto.
  - intros H (keyword & Hin & Hc). rewrite (H keyword Hin) in Hc. discriminate.
Qed.

Section TextFacts.
Context {U : Unicode}.

Lemma split_from_lstrip (s : str) : split_from (lstrip s) [] = split_from s [].
Proof.
  induction s as [|c r IH]; simpl; [reflexivity|].
  destruct (isspace c) eqn:Hc; [exact IH|]. simpl. rewrite Hc. reflexivity.
Qed.

Lemma split_from_snoc_space (s word : str) (c : char) :
  isspace c = true -> split_from (s ++ [c]) word = split_from s word.
Proof.
  intros Hc. revert word. induction s as [|x r IH]; intros word; simpl.
  - rewrite Hc. destruct word; reflexivity.
  - destruct (isspace x); [destruct word|]; rewrite ?IH; reflexivity.
Qed.

Lemma split_from_rstrip (s word : str) :
  split_from (rev (lstrip (rev s))) word = split_from s word.
Proof.
  induction s as [|c r IH] using rev_ind; [reflexivity|].
  rewrite rev_app_distr. simpl. destruct (isspace c) eqn:Hc.
  - rewrite IH, split_from_snoc_space by exact Hc. reflexivity.
  - simpl. rewrite rev_involutive. reflexivity.
Qed.

(** [query.strip().split()] and [query.split()] are the same tokens. *)
Lemma split_strip (s : str) : split (strip s) = split s.
Proof. unfold split, strip. rewrite split_from_rstrip. apply split_from_lstrip. Qed.
End TextFacts.

(** ** The intent classifier *)

(** C4: a query whose lowercased text contains an order_taking keyword is
    classified order_taking, whichever other keywords it contains: the
    order_taking test comes first and the first match wins. *)
Theorem classify_order_taking_first {U : Unicode} (query : str) :
  (exists keyword, In keyword order_taking_keywords
                   /\ contains keyword (lower query) = true) ->
  classify_intent query = order_taking.
Proof.
  intros H. apply any_in_spec in H. unfold classify_intent. rewrite H. reflexivity.
Qed.

Lemma classify_order_taking_first_witness :
  classify_intent (U := ascii_tables)
    (u "Yes I want a refund, where is my cart? checkout with cash") = order_taking.
Proof.
  apply (classify_order_taking_first (U := ascii_tables)).
  exists (u "i want"). split; [|vm_compute; reflexivity].
  vm_compute. left. reflexivity.
Defined.

(** C5: a query of at most two whitespace-separated tokens whose
    lowercased text has a confirmation word and no order_taking keyword
    is classified confirmation, and a query of three tokens or more never
    is, whatever words it contains. *)
Theorem classify_confirmation_short_only {U : Unicode} :
  (forall query : str,
     (length (split query) <= 2)%nat ->
     (exists keyword, In keyword confirmation_keywords
                      /\ contains keyword (lower query) = true) ->
     (forall keyword, In keyword order_taking_keywords ->
                      contains keyword (lower query) = false) ->
     classify_intent query = confirmation)
  /\
  (forall query : str,
     (3 <= length (split query))%nat -> classify_intent query <> confirmation).
Proof.
  split.
  - intros query Hlen Hconf Hord.
    apply any_in_spec in Hconf. apply any_in_false in Hord.
    unfold classify_intent. rewrite Hord, Hconf, split_strip.
    apply Nat.leb_le in Hlen. rewrite Hlen. reflexivity.
  - intros query Hlen. unfold classify_intent. rewrite split_strip.
    assert (Hgt : (length (split query) <=? 2)%nat = false)
      by (apply Nat.leb_gt; lia).
    rewrite Hgt, andb_false_r.
    repeat match goal with
           | |- (if ?b then _ else _) <> _ => destruct b; [discriminate|]
           end.
    discriminate.
Qed.

Lemma classify_confirmation_short_only_witness :
  classify_intent (U := ascii_tables) (u "Yes") = confirmation
  /\ classify_intent (U := ascii_tables) (u "yes it is broken") <> confirmation.
Proof.
  destruct (classify_confirmation_short_only (U := ascii_tables)) as [Hshort Hlong].
  split.
  - apply Hshort.
    + vm_compute. lia.
    + exists (u "yes"). split; [vm_compute; left; reflexivity | vm_compute; reflexivity].
    + apply any_in_false. vm_compute. reflexivity.
  - apply Hlong. vm_compute. lia.
Defined.

(** ** The extractor's patterns *)

(** The ASCII tables are tables of the kind the properties below assume. *)
Lemma ascii_facts : UnicodeFacts ascii_tables.
Proof.
  split; simpl.
  - reflexivity.
  - reflexivity.
  - reflexivity.
  - reflexivity.
  - intros c. unfold ascii_space, ascii_lower.
    destruct ((65 <=? c) && (c <=? 90)) eqn:H; [|reflexivity].
    apply andb_true_iff in H as [H1 H2]. apply N.leb_le in H1, H2.
    repeat match goal with |- context [?a <=? ?b] => destruct (N.leb_spec a b) end; try lia; reflexivity.
  - intros c. unfold ascii_digit, ascii_lower.
    destruct ((65 <=? c) && (c <=? 90)) eqn:H; [|reflexivity].
    apply andb_true_iff in H as [H1 H2]. apply N.leb_le in H1, H2.
    repeat match goal with |- context [?a <=? ?b] => destruct (N.leb_spec a b) end; try lia; reflexivity.
  - intros c. unfold ascii_space, ascii_digit.
    repeat match goal with |- context [?a <=? ?b] => destruct (N.leb_spec a b) end; simpl; try lia; try reflexivity; try discriminate.
Qed.

Section MatcherFacts.
Context {U : Unicode}.
Variable ignorecase : bool.

Lemma star_greedy {A} (f : char -> bool) (run s : str) (k : str -> option A) (x : A) :
  Forall (fun c => f c = true) run -> begins_off f s -> k s = Some x ->
  star f (run ++ s) k = Some x.
Proof.
  intros Hrun Hs Hk. induction Hrun as [|c run Hc _ IH]; simpl.
  - destruct s as [|c s']; [exact Hk|]. simpl in *. rewrite Hs. exact Hk.
  - rewrite Hc, IH. reflexivity.
Qed.

Lemma plus_greedy {A} (f : char -> bool) (run s : str) (k : str -> option A) (x : A) :
  run <> [] -> Forall (fun c => f c = true) run -> begins_off f s -> k s = Some x ->
  plus f (run ++ s) k = Some x.
Proof.
  intros Hne Hrun Hs Hk. destruct Hrun as [|c run Hc Hrun]; [contradiction|].
  simpl. rewrite Hc. apply star_greedy; assumption.
Qed.

(** A run that the continuation refuses at every split is refused. *)
Lemma star_refused {A} (f : char -> bool) (run s : str) (k : str -> option A) :
  begins_off f s ->
  (forall i, k (drop i run ++ s) = None) ->
  star f (run ++ s) k = None.
Proof.
  intros Hs. induction run as [|c run IH]; intros Hk; simpl.
  - specialize (Hk 0%nat). simpl in Hk.
    destruct s as [|c s']; [exact Hk|]. simpl in *. rewrite Hs. exact Hk.
  - rewrite IH by (intros i; exact (Hk (S i))).
    pose proof (Hk 0%nat) as H0. simpl in H0. rewrite H0. destruct (f c); reflexivity.
Qed.

Lemma taken (a b : str) : take (length (a ++ b) - length b) (a ++ b) = a.
Proof.
  rewrite length_app. replace (length a + length b - length b)%nat with (length a) by lia.
  apply take_app_length.
Qed.
End MatcherFacts.

Section ReadingFacts.
Context {U : Unicode} {UF : UnicodeFacts U}.

Lemma lit_reads {A} (p t s : str) (k : str -> option A) :
  reads_as p t -> lit true p (t ++ s) k = k s.
Proof.
  intros H. induction H as [|a c p t Hac _ IH]; simpl; [reflexivity|].
  unfold chr_eq. rewrite Hac, N.eqb_refl. exact IH.
Qed.

(** A text that does not begin with a character reading as [p] is refused. *)
Lemma lit_refused {A} (p0 : char) (p s : str) (k : str -> option A) :
  begins_off (fun c => casefold p0 =? casefold c) s ->
  lit true (p0 :: p) s k = None.
Proof.
  destruct s as [|c s]; simpl; [reflexivity|]. unfold chr_eq. intros ->. reflexivity.
Qed.

Lemma reads_head (p0 : char) (p t : str) :
  reads_as (p0 :: p) t -> exists c t', t = c :: t' /\ casefold p0 = casefold c.
Proof. intros H. inversion H; subst. eauto. Qed.

Lemma reads_not_space (p c : char) :
  p < 128 -> ascii_space p = false -> casefold p = casefold c -> isspace c = false.
Proof.
  intros Hp Hs Hc.
  rewrite <- (isspace_casefold c), <- Hc, isspace_casefold, isspace_ascii; assumption.
Qed.

Lemma reads_not_decimal (p c : char) :
  p < 128 -> ascii_digit p = false -> casefold p = casefold c -> isdecimal c = false.
Proof.
  intros Hp Hs Hc.
  rewrite <- (isdecimal_casefold c), <- Hc, isdecimal_casefold, isdecimal_ascii; assumption.
Qed.

Lemma reads_apart (p q c : char) :
  p < 128 -> q < 128 -> ascii_lower p <> ascii_lower q ->
  casefold q = casefold c -> (casefold p =? casefold c) = false.
Proof.
  intros Hp Hq Hpq Hc. apply N.eqb_neq. rewrite <- Hc, !casefold_ascii by assumption.
  exact Hpq.
Qed.

Lemma space_not_read (p c : char) :
  p < 128 -> ascii_space p = false -> isspace c = true ->
  (casefold p =? casefold c) = false.
Proof.
  intros Hp Hs Hc. apply N.eqb_neq. intros Heq.
  rewrite (reads_not_space p c Hp Hs Heq) in Hc. discriminate.
Qed.

Lemma decimal_not_space (c : char) : isdecimal c = true -> isspace c = false.
Proof.
  intros Hd. destruct (isspace c) eqn:Hs; [|reflexivity].
  rewrite (isspace_not_decimal c Hs) in Hd. discriminate.
Qed.

Lemma begins_off_reads (f : char -> bool) (p0 : char) (p t s : str) :
  reads_as (p0 :: p) t -> (forall c, casefold p0 = casefold c -> f c = false) ->
  begins_off f (t ++ s).
Proof.
  intros Ht Hf. apply reads_head in Ht as (c & t' & -> & Hc). simpl. auto.
Qed.

Lemma begins_off_number (f : char -> bool) (t s : str) :
  number t -> (forall c, isdecimal c = true -> f c = false) -> begins_off f (t ++ s).
Proof.
  intros [Hne Hall] Hf. destruct Hall as [|c t Hc _]; [contradiction|]. simpl. auto.
Qed.
End ReadingFacts.

Section FieldFacts.
Context {U : Unicode} {UF : UnicodeFacts U}.

Lemma comma_not_decimal (c : char) : casefold 44 = casefold c -> isdecimal c = false.
Proof. apply reads_not_decimal; [lia | reflexivity]. Qed.

Lemma exec_quantity_field {A} comma ws1 kw ws2 digits rest c
    (k : str -> captures -> option A) (x : A) :
  reads_as (u ",") comma -> blank ws1 -> reads_as (u "Quantity:") kw -> blank ws2 ->
  number digits -> begins_off isdecimal rest ->
  k rest ((3%nat, digits) :: c) = Some x ->
  exec true quantity_field (comma ++ ws1 ++ kw ++ ws2 ++ digits ++ rest) c k = Some x.
Proof.
  intros Hcomma Hws1 Hkw Hws2 Hdigits Hrest Hk.
  unfold quantity_field. cbn [exec]. rewrite lit_reads by exact Hcomma.
  apply star_greedy; [exact Hws1| |].
  { eapply begins_off_reads; [exact Hkw|]. intros ch.
    apply reads_not_space; [vm_compute; reflexivity | reflexivity]. }
  rewrite lit_reads by exact Hkw.
  apply star_greedy; [exact Hws2| |].
  { apply begins_off_number; [exact Hdigits|]. apply decimal_not_space. }
  destruct Hdigits as [Hne Hall].
  apply plus_greedy; [exact Hne | exact Hall | exact Hrest |].
  rewrite taken. exact Hk.
Qed.

Lemma exec_quantity_absent {A} rest c (k : str -> captures -> option A) :
  begins_off (fun ch => casefold 44 =? casefold ch) rest ->
  exec true quantity_field rest c k = None.
Proof.
  intros Hrest. unfold quantity_field. cbn [exec].
  change (u ",") with [44]. apply lit_refused. exact Hrest.
Qed.

Lemma exec_size_field {A} comma ws1 kw ws2 text rest c
    (k : str -> captures -> option A) (x : A) :
  reads_as (u ",") comma -> blank ws1 -> reads_as (u "Size:") kw -> blank ws2 ->
  text <> [] -> free_of 44 text -> begins_off isspace text ->
  begins_off (fun ch => negb (casefold 44 =? casefold ch)) rest ->
  k rest ((2%nat, text) :: c) = Some x ->
  exec true size_field (comma ++ ws1 ++ kw ++ ws2 ++ text ++ rest) c k = Some x.
Proof.
  intros Hcomma Hws1 Hkw Hws2 Hne Hfree Hlead Hrest Hk.
  unfold size_field. cbn [exec]. rewrite lit_reads by exact Hcomma.
  apply star_greedy; [exact Hws1| |].
  { eapply begins_off_reads; [exact Hkw|]. intros ch.
    apply reads_not_space; [vm_compute; reflexivity | reflexivity]. }
  rewrite lit_reads by exact Hkw.
  apply star_greedy; [exact Hws2| |].
  { destruct text as [|ch text]; [contradiction|]. exact Hlead. }
  apply plus_greedy; [exact Hne | | |].
  - eapply Forall_impl; [exact Hfree|]. intros ch Hch.
    change (u ",") with [44]. cbn [in_cls existsb]. unfold chr_eq.
    apply N.eqb_neq in Hch. rewrite Hch. reflexivity.
  - destruct rest as [|ch rest]; [exact I|].
    change (u ",") with [44]. cbn [begins_off in_cls existsb] in *. unfold chr_eq.
    rewrite orb_false_r. exact Hrest.
  - rewrite taken. exact Hk.
Qed.

Lemma exec_size_absent {A} rest c (k : str -> captures -> option A) :
  begins_off (fun ch => casefold 44 =? casefold ch) rest ->
  exec true size_field rest c k = None.
Proof.
  intros Hrest. unfold size_field. cbn [exec].
  change (u ",") with [44]. apply lit_refused. exact Hrest.
Qed.

(** A Quantity field is not taken for a Size field. *)
Lemma exec_size_refuses_quantity {A} comma ws1 kw more c
    (k : str -> captures -> option A) :
  reads_as (u ",") comma -> blank ws1 -> reads_as (u "Quantity:") kw ->
  exec true size_field (comma ++ ws1 ++ kw ++ more) c k = None.
Proof.
  intros Hcomma Hws1 Hkw.
  unfold size_field. cbn [exec]. rewrite lit_reads by exact Hcomma.
  apply star_refused.
  { eapply begins_off_reads; [exact Hkw|]. intros ch.
    apply reads_not_space; [vm_compute; reflexivity | reflexivity]. }
  intros i. change (u "Size:") with (83 :: u "ize:"). apply lit_refused.
  assert (Hdrop : blank (drop i ws1)) by (apply Forall_drop; exact Hws1).
  destruct (drop i ws1) as [|ch tail].
  - change (u "Quantity:") with (81 :: u "uantity:") in Hkw. cbn [app].
    apply (begins_off_reads _ 81 (u "uantity:")); [exact Hkw|]. intros ch Hch.
    apply (reads_apart 83 81 ch); [reflexivity | reflexivity | discriminate | exact Hch].
  - simpl. inversion Hdrop; subst.
    apply space_not_read; [vm_compute; reflexivity | reflexivity | assumption].
Qed.
End FieldFacts.

Section DirectiveFacts.
Context {U : Unicode} {UF : UnicodeFacts U}.

(** The optional fields after the product id. *)
Lemma exec_optional_fields sz size q quantity pid rest :
  size_part sz size -> quantity_part q quantity ->
  begins_off isdecimal rest ->
  begins_off (fun ch => casefold 44 =? casefold ch) rest ->
  (negb (is_nil sz) && is_nil q = true -> rest = []) ->
  exists caps,
    exec true (Opt size_field ⊙ Opt quantity_field) (sz ++ q ++ rest)
      [(1%nat, pid)] accept = Some (rest, caps)
    /\ group caps 1 = pid
    /\ (if is_nil (group caps 2) then None else Some (strip (group caps 2))) = size
    /\ (if is_nil (group caps 3) then 1 else int_of_digits (group caps 3)) = quantity.
Proof.
  intros Hsz Hq Hdec Hcomma Hlast. cbn [exec].
  destruct Hsz as [|comma ws1 kw ws2 text Hc1 Hw1 Hk1 Hw2 Hne Hfree Hlead];
    destruct Hq as [|comma' ws1' kw' ws2' digits Hc1' Hw1' Hk1' Hw2' Hnum].
  - exists [(1%nat, pid)]. cbn [app].
    rewrite exec_size_absent, exec_quantity_absent by exact Hcomma.
    repeat split; reflexivity.
  - exists [(3%nat, digits); (1%nat, pid)]. cbn [app]. rewrite <- !app_assoc.
    rewrite exec_size_refuses_quantity by assumption.
    erewrite exec_quantity_field; try eassumption; [|reflexivity].
    destruct Hnum as [Hne _]. destruct digits; [contradiction|].
    repeat split; reflexivity.
  - rewrite (Hlast ltac:(destruct comma; [inversion Hc1|reflexivity])).
    exists [(2%nat, text); (1%nat, pid)]. rewrite !app_nil_r.
    rewrite <- (app_nil_r (comma ++ ws1 ++ kw ++ ws2 ++ text)), <- !app_assoc.
    erewrite exec_size_field; try eassumption; try exact I.
    + destruct text; [contradiction|]. repeat split; reflexivity.
    + rewrite exec_quantity_absent by exact I. reflexivity.
  - exists [(3%nat, digits); (2%nat, text); (1%nat, pid)]. rewrite <- !app_assoc.
    erewrite exec_size_field; try eassumption.
    + destruct text; [contradiction|]. destruct Hnum as [Hd _].
      destruct digits; [contradiction|]. repeat split; reflexivity.
    + change (u ",") with [44] in Hc1'. apply reads_head in Hc1' as (ch & t & -> & Hch).
      cbn [app begins_off]. rewrite Hch, N.eqb_refl. reflexivity.
    + erewrite exec_quantity_field; try eassumption; reflexivity.
Qed.

Lemma exec_directive_fields f item pid size_last rest :
  fields_text f item pid size_last ->
  begins_off isdecimal rest ->
  begins_off (fun ch => casefold 44 =? casefold ch) rest ->
  (size_last = true -> rest = []) ->
  exists caps,
    exec true directive_fields (f ++ rest) [] accept = Some (rest, caps)
    /\ directive_of_match (List.map (group caps) (seq 1 3)) = item
    /\ group caps 1 = pid.
Proof.
  intros Hf Hdec Hcomma Hlast.
  destruct Hf as [ws1 kw ws2 pid sz size q quantity Hw1 Hkw Hw2 Hpid Hsz Hq].
  destruct (exec_optional_fields sz size q quantity pid rest Hsz Hq Hdec Hcomma Hlast)
    as (caps & Hexec & Hg1 & Hg2 & Hg3).
  exists caps. split; [|split; [|exact Hg1]].
  - unfold directive_fields. rewrite <- !app_assoc.
    change (exec true (?a ⊙ ?b) ?s ?c ?k)
      with (exec true a s c (fun s' c' => exec true b s' c' k)).
    cbn [exec]. apply star_greedy; [exact Hw1| |].
    { change (u "Product ID") with (80 :: u "roduct ID") in Hkw.
      apply (begins_off_reads _ 80 (u "roduct ID")); [exact Hkw|]. intros ch.
      apply reads_not_space; [reflexivity | reflexivity]. }
    rewrite lit_reads by exact Hkw.
    apply star_greedy; [exact Hw2| |].
    { apply begins_off_number; [exact Hpid|]. apply decimal_not_space. }
    destruct Hpid as [Hne Hall].
    apply plus_greedy; [exact Hne | exact Hall | |].
    + destruct Hsz as [|comma ? ? ? ? Hc1]; [destruct Hq as [|comma ? ? ? ? Hc1]|].
      * exact Hdec.
      * change (u ",") with [44] in Hc1. apply reads_head in Hc1 as (ch & t & -> & Hch).
        cbn [app begins_off]. apply comma_not_decimal. exact Hch.
      * change (u ",") with [44] in Hc1. apply reads_head in Hc1 as (ch & t & -> & Hch).
        cbn [app begins_off]. apply comma_not_decimal. exact Hch.
    + rewrite taken. exact Hexec.
  - unfold directive_of_match. cbn [List.map seq nth]. rewrite Hg1, Hg2, Hg3.
    reflexivity.
Qed.
End DirectiveFacts.

Section FindallFacts.
Context {U : Unicode}.
Variable ignorecase : bool.

Lemma findall_from_cons (r : re) (n : nat) (c : char) (t : str) :
  findall_from ignorecase r n (c :: t) 0
  = match match_here ignorecase r (c :: t) with
    | Some (s', caps) =>
      List.map (group caps) (seq 1 n)
        :: findall_from ignorecase r n t (length (c :: t) - length s' - 1)
    | None => findall_from ignorecase r n t 0
    end.
Proof. reflexivity. Qed.

Lemma findall_from_skip (r : re) (n : nat) (x y : str) :
  findall_from ignorecase r n (x ++ y) (length x) = findall_from ignorecase r n y 0.
Proof. induction x as [|c x IH]; [reflexivity | exact IH]. Qed.
End FindallFacts.

Section MessageFacts.
Context {U : Unicode} {UF : UnicodeFacts U}.

Lemma findall_from_free (p0 : char) (p : str) (r : re) (n : nat) (before y : str) :
  free_of p0 before ->
  findall_from true (Lit (p0 :: p) ⊙ r) n (before ++ y) 0
  = findall_from true (Lit (p0 :: p) ⊙ r) n y 0.
Proof.
  intros H. induction H as [|c before Hc _ IH]; [reflexivity|].
  cbn [app]. rewrite findall_from_cons.
  replace (match_here true (Lit (p0 :: p) ⊙ r) (c :: before ++ y)) with
    (@None (str * captures)); [exact IH|].
  unfold match_here. cbn [exec lit]. unfold chr_eq.
  apply N.eqb_neq in Hc. rewrite Hc. reflexivity.
Qed.

Lemma findall_free (p0 : char) (p : str) (r : re) (n : nat) (text : str) :
  free_of p0 text -> findall true (Lit (p0 :: p) ⊙ r) n text = [].
Proof.
  intros H. unfold findall. rewrite <- (app_nil_r text), findall_from_free by exact H.
  reflexivity.
Qed.

Lemma match_glyph_directive o f item pid size_last rest :
  glyph_opening o ->
  fields_text f item pid size_last ->
  begins_off isdecimal rest ->
  begins_off (fun ch => casefold 44 =? casefold ch) rest ->
  (size_last = true -> rest = []) ->
  exists caps,
    match_here true add_to_cart_pattern (o ++ f ++ rest) = Some (rest, caps)
    /\ directive_of_match (List.map (group caps) (seq 1 3)) = item
    /\ group caps 1 = pid.
Proof.
  intros (glyph & ws & kw & -> & Hglyph & Hws & Hkw) Hf Hdec Hcomma Hlast.
  destruct (exec_directive_fields f item pid size_last rest Hf Hdec Hcomma Hlast)
    as (caps & Hexec & Hitem).
  exists caps. split; [|exact Hitem].
  unfold match_here, add_to_cart_pattern. rewrite <- !app_assoc. cbn [exec].
  rewrite lit_reads by exact Hglyph.
  apply star_greedy; [exact Hws| |].
  { change (u "**ADD TO CART**:") with (42 :: u "*ADD TO CART**:") in Hkw.
    apply (begins_off_reads _ 42 (u "*ADD TO CART**:")); [exact Hkw|]. intros ch.
    apply reads_not_space; reflexivity. }
  rewrite lit_reads by exact Hkw. exact Hexec.
Qed.

Lemma match_plain_directive o f item pid size_last rest :
  plain_opening o ->
  fields_text f item pid size_last ->
  begins_off isdecimal rest ->
  begins_off (fun ch => casefold 44 =? casefold ch) rest ->
  (size_last = true -> rest = []) ->
  exists caps,
    match_here true add_to_cart_alt_pattern (o ++ f ++ rest) = Some (rest, caps)
    /\ directive_of_match (List.map (group caps) (seq 1 3)) = item
    /\ group caps 1 = pid.
Proof.
  intros Ho Hf Hdec Hcomma Hlast.
  destruct (exec_directive_fields f item pid size_last rest Hf Hdec Hcomma Hlast)
    as (caps & Hexec & Hitem).
  exists caps. split; [|exact Hitem].
  unfold match_here, add_to_cart_alt_pattern. cbn [exec].
  rewrite lit_reads by exact Ho. exact Hexec.
Qed.

(** [findall] on a message of directives finds its directives, in order. *)
Lemma findall_directive_message (opening : str -> Prop) (p0 : char) (p : str) (r : re)
    text items pids :
  (forall o, opening o -> o <> []) ->
  (forall o f item pid size_last rest,
     opening o -> fields_text f item pid size_last ->
     begins_off isdecimal rest ->
     begins_off (fun ch => casefold 44 =? casefold ch) rest ->
     (size_last = true -> rest = []) ->
     exists caps,
       match_here true (Lit (p0 :: p) ⊙ r) (o ++ f ++ rest) = Some (rest, caps)
       /\ directive_of_match (List.map (group caps) (seq 1 3)) = item
       /\ group caps 1 = pid) ->
  directive_message opening p0 text items pids ->
  List.map directive_of_match (findall true (Lit (p0 :: p) ⊙ r) 3 text) = items
  /\ List.map (fun m => nth 0 m []) (findall true (Lit (p0 :: p) ⊙ r) 3 text) = pids.
Proof.
  intros Hopen Hmatch Hmsg. unfold findall.
  induction Hmsg as [before Hfree
                    |before o f item pid size_last rest items pids
                       Hfree Ho Hf Hdec Hcomma Hlast _ IH].
  - rewrite <- (app_nil_r before), findall_from_free by exact Hfree.
    split; reflexivity.
  - rewrite findall_from_free by exact Hfree.
    destruct (Hmatch o f item pid size_last rest Ho Hf Hdec Hcomma Hlast)
      as (caps & Hm & Hitem & Hpid).
    pose proof (Hopen o Ho) as Hne. destruct o as [|c o]; [contradiction|].
    cbn [app] in *. rewrite findall_from_cons, Hm.
    replace (length (c :: o ++ f ++ rest) - length rest - 1)%nat
      with (length (o ++ f)) by (cbn [length]; rewrite !length_app; lia).
    rewrite (app_assoc o f rest), findall_from_skip.
    destruct IH as [IH1 IH2]. cbn [List.map]. rewrite IH1, IH2, Hitem.
    cbn [seq List.map nth]. rewrite Hpid. split; reflexivity.
Qed.

Lemma glyph_opening_not_nil o : glyph_opening o -> o <> [].
Proof.
  intros (glyph & ws & kw & -> & Hglyph & _). inversion Hglyph; subst. discriminate.
Qed.

Lemma plain_opening_not_nil o : plain_opening o -> o <> [].
Proof. intros H. inversion H; subst. discriminate. Qed.

Lemma extract_found (text : str) (found : list (list str)) :
  found <> [] ->
  (findall true add_to_cart_pattern 3 text = found
   \/ (findall true add_to_cart_pattern 3 text = []
       /\ findall true add_to_cart_alt_pattern 3 text = found)) ->
  extract_order_intent_from_response text
  = Ok {| has_order_action := true;
          action_type := Some add_to_cart_action;
          items := List.map directive_of_match found;
          instructions := List.map instruction_of_match found |}.
Proof.
  intros Hne H. unfold extract_order_intent_from_response.
  destruct H as [-> | [-> ->]]; destruct found; try contradiction; reflexivity.
Qed.
End MessageFacts.


Section Example.
Context {U : Unicode} {UF : UnicodeFacts U}.

Lemma reads_as_refl (p : str) : reads_as p p.
Proof. induction p; constructor; auto. Qed.

(** The directive of the specification's example, read by the grammar. *)
Lemma example_directive_message :
  directive_message glyph_opening cart_glyph
    (u "🛒 **ADD TO CART**: Product ID 8, Size: .5 lb, Quantity: 1")
    [directive_item 8 1 (Some (u ".5 lb"))] [u "8"].
Proof.
  assert (Hsp : blank [32])
    by (repeat constructor; rewrite isspace_ascii; [reflexivity | reflexivity]).
  assert (Hstrip : strip (u ".5 lb") = u ".5 lb").
  { unfold strip. change (u ".5 lb") with [46; 53; 32; 108; 98].
    cbn [lstrip]. rewrite (isspace_ascii 46) by reflexivity. cbn [ascii_space N.leb].
    cbn. rewrite (isspace_ascii 98) by reflexivity. reflexivity. }
  assert (H8 : int_of_digits (u "8") = 8).
  { unfold int_of_digits. cbn [u fold_left]. change (u "8") with [56]. cbn [fold_left].
    rewrite decimal_value_ascii by reflexivity. reflexivity. }
  assert (H1 : int_of_digits (u "1") = 1).
  { unfold int_of_digits. change (u "1") with [49]. cbn [fold_left].
    rewrite decimal_value_ascii by reflexivity. reflexivity. }
  replace [directive_item 8 1 (Some (u ".5 lb"))]
    with [directive_item (int_of_digits (u "8")) (int_of_digits (u "1"))
            (Some (strip (u ".5 lb")))]
    by (rewrite Hstrip, H8, H1; reflexivity).
  apply (message_directive glyph_opening 128722 []
           (u "🛒" ++ [32] ++ u "**ADD TO CART**:")
           ([32] ++ u "Product ID" ++ [32] ++ u "8"
                 ++ (u "," ++ [32] ++ u "Size:" ++ [32] ++ u ".5 lb")
                 ++ (u "," ++ [32] ++ u "Quantity:" ++ [32] ++ u "1"))
           _ (u "8") (negb (is_nil (u "," ++ [32] ++ u "Size:" ++ [32] ++ u ".5 lb"))
                      && is_nil (u "," ++ [32] ++ u "Quantity:" ++ [32] ++ u "1"))
           [] [] []).
  - constructor.
  - exists (u "🛒"), [32], (u "**ADD TO CART**:").
    repeat split; try apply reads_as_refl; exact Hsp.
  - apply fields_intro; try apply reads_as_refl; try exact Hsp.
    + split; [discriminate|]. repeat constructor. rewrite isdecimal_ascii; reflexivity.
    + apply size_present; try apply reads_as_refl; try exact Hsp.
      * discriminate.
      * change (u ".5 lb") with [46; 53; 32; 108; 98].
        repeat constructor; rewrite !casefold_ascii by reflexivity; discriminate.
      * change (u ".5 lb") with [46; 53; 32; 108; 98]. cbn [begins_off].
        rewrite isspace_ascii; reflexivity.
    + apply quantity_present; try apply reads_as_refl; try exact Hsp.
      split; [discriminate|]. repeat constructor. rewrite isdecimal_ascii; reflexivity.
  - exact I.
  - exact I.
  - reflexivity.
  - constructor. constructor.
Qed.
End Example.

Lemma free_of_forallb {U : Unicode} (p : char) (s : str) :
  forallb (fun c => negb (casefold p =? casefold c)) s = true -> free_of p s.
Proof.
  intros H. apply List.Forall_forall. intros c Hin Heq.
  rewrite forallb_forall in H. specialize (H c Hin).
  rewrite Heq, N.eqb_refl in H. discriminate.
Qed.

(** C2, as the code has it: a message made of directives with the glyph,
    [🛒 **ADD TO CART**: Product ID <int>[, Size: <text>][, Quantity: <int>]],
    read up to case and white space, gives [has_order_action = true],
    [add_to_cart] and one item per directive, in order, with the product
    id, the size stripped (or none) and the quantity, 1 when the field is
    omitted.  Without the glyph a directive is read in its plain form
    [ADD TO CART: Product ID ...], with no bold markers, and only in a
    message that holds no glyph.  In both forms a directive that ends with a
    Size field ends the message.  The directive of the example gives
    exactly the item [{product_id: 8, size: ".5 lb", quantity: 1}]. *)
Theorem extract_directives {U : Unicode} {UF : UnicodeFacts U} :
  (forall (text : str) (items : list item_data) (pids : list str),
     items <> [] ->
     directive_message glyph_opening cart_glyph text items pids
     \/ (free_of cart_glyph text /\ directive_message plain_opening capital_a text items pids) ->
     extract_order_intent_from_response text
     = Ok {| has_order_action := true;
             action_type := Some add_to_cart_action;
             items := items;
             instructions :=
               List.map (fun pid => u "Add Product ID " ++ pid ++ u " to cart") pids |})
  /\ extract_order_intent_from_response
       (u "🛒 **ADD TO CART**: Product ID 8, Size: .5 lb, Quantity: 1")
     = Ok {| has_order_action := true;
             action_type := Some add_to_cart_action;
             items := [directive_item 8 1 (Some (u ".5 lb"))];
             instructions := [u "Add Product ID 8 to cart"] |}.
Proof.
  assert (Hall : forall (text : str) (items : list item_data) (pids : list str),
     items <> [] ->
     directive_message glyph_opening cart_glyph text items pids
     \/ (free_of cart_glyph text /\ directive_message plain_opening capital_a text items pids) ->
     extract_order_intent_from_response text
     = Ok {| has_order_action := true;
             action_type := Some add_to_cart_action;
             items := items;
             instructions :=
               List.map (fun pid => u "Add Product ID " ++ pid ++ u " to cart") pids |}).
  { intros text items pids Hne [Hmsg | [Hfree Hmsg]].
    - destruct (findall_directive_message glyph_opening 128722 [] _ text items pids
                  glyph_opening_not_nil match_glyph_directive Hmsg) as [Hitems Hpids].
      change (List.map directive_of_match (findall true add_to_cart_pattern 3 text)
              = items) in Hitems.
      change (List.map (fun m => nth 0 m []) (findall true add_to_cart_pattern 3 text)
              = pids) in Hpids.
      rewrite (extract_found text (findall true add_to_cart_pattern 3 text)).
      + rewrite Hitems, <- Hpids, map_map. reflexivity.
      + intros Hnil. apply Hne. rewrite <- Hitems, Hnil. reflexivity.
      + left. reflexivity.
    - destruct (findall_directive_message plain_opening 65 (u "DD TO CART:") _ text
                  items pids plain_opening_not_nil match_plain_directive Hmsg)
        as [Hitems Hpids].
      change (List.map directive_of_match (findall true add_to_cart_alt_pattern 3 text)
              = items) in Hitems.
      change (List.map (fun m => nth 0 m []) (findall true add_to_cart_alt_pattern 3 text)
              = pids) in Hpids.
      rewrite (extract_found text (findall true add_to_cart_alt_pattern 3 text)).
      + rewrite Hitems, <- Hpids, map_map. reflexivity.
      + intros Hnil. apply Hne. rewrite <- Hitems, Hnil. reflexivity.
      + right. split; [|reflexivity].
        apply (findall_free 128722 []). exact Hfree. }
  split; [exact Hall|].
  rewrite (Hall _ [directive_item 8 1 (Some (u ".5 lb"))] [u "8"]).
  - reflexivity.
  - discriminate.
  - left. apply example_directive_message.
Qed.

(** [message_directive], with the text and the items given up to equality. *)
Lemma message_directive_eq {U : Unicode} (opening : str -> Prop) (p0 : char)
    text all_items all_pids before o f item pid size_last rest items pids :
  text = before ++ o ++ f ++ rest ->
  all_items = item :: items ->
  all_pids = pid :: pids ->
  free_of p0 before ->
  opening o ->
  fields_text f item pid size_last ->
  begins_off isdecimal rest ->
  begins_off (fun c => casefold 44 =? casefold c) rest ->
  (size_last = true -> rest = []) ->
  directive_message opening p0 rest items pids ->
  directive_message opening p0 text all_items all_pids.
Proof. intros -> -> ->. apply message_directive. Qed.

Lemma extract_directives_witness :
  extract_order_intent_from_response (U := ascii_tables)
    (u "ADD TO CART: product id 12,Quantity: 3
then ADD TO CART: Product ID 7, Size: Large")
  = Ok {| has_order_action := true;
          action_type := Some add_to_cart_action;
          items := [directive_item 12 3 None; directive_item 7 1 (Some (u "Large"))];
          instructions := [u "Add Product ID 12 to cart"; u "Add Product ID 7 to cart"] |}.
Proof.
  destruct (extract_directives (U := ascii_tables) (UF := ascii_facts)) as [Hall _].
  apply (Hall _ [directive_item 12 3 None; directive_item 7 1 (Some (u "Large"))]
           [u "12"; u "7"]).
  - discriminate.
  - right. split; [apply free_of_forallb; vm_compute; reflexivity|].
    eapply (message_directive_eq (U := ascii_tables) plain_opening 65 _ _ _ []
             (u "ADD TO CART:")
             ([32] ++ u "product id" ++ [32] ++ u "12" ++ []
                   ++ (u "," ++ [] ++ u "Quantity:" ++ [32] ++ u "3"))
             (directive_item (int_of_digits (U := ascii_tables) (u "12"))
                (int_of_digits (U := ascii_tables) (u "3")) None)
             (u "12") _
             (u "
then ADD TO CART: Product ID 7, Size: Large")
             [directive_item 7 1 (Some (u "Large"))] [u "7"]);
      [vm_compute; reflexivity | vm_compute; reflexivity | reflexivity
      | constructor | repeat constructor | | reflexivity | reflexivity | | ].
    + apply (fields_intro (U := ascii_tables)); try (repeat constructor; fail).
      * split; [discriminate | repeat constructor].
      * apply (quantity_present (U := ascii_tables)); try (repeat constructor; fail).
        split; [discriminate | repeat constructor].
    + discriminate.
    + eapply (message_directive_eq (U := ascii_tables) plain_opening 65 _ _ _
               (u "
then ")
               (u "ADD TO CART:")
               ([32] ++ u "Product ID" ++ [32] ++ u "7"
                     ++ (u "," ++ [32] ++ u "Size:" ++ [32] ++ u "Large") ++ [])
               (directive_item (int_of_digits (U := ascii_tables) (u "7")) 1
                  (Some (strip (U := ascii_tables) (u "Large"))))
               (u "7") _ [] [] []);
        [vm_compute; reflexivity | vm_compute; reflexivity | reflexivity
        | apply free_of_forallb; vm_compute; reflexivity | repeat constructor
        | | exact I | exact I | reflexivity | constructor; constructor ].
      apply (fields_intro (U := ascii_tables)); try (repeat constructor; fail).
      * split; [discriminate | repeat constructor].
      * apply (size_present (U := ascii_tables)); try (repeat constructor; fail).
        -- discriminate.
        -- apply free_of_forallb. vm_compute. reflexivity.
Defined.

(** C2, as stated, fails: the directive of the example without its
    glyph, bold markers kept, is not read by either pattern, and no
    action is found. *)
Lemma bold_directive_without_glyph_not_read :
  extract_order_intent_from_response (U := ascii_tables)
    (u "**ADD TO CART**: Product ID 8, Size: .5 lb, Quantity: 1")
  = Ok {| has_order_action := false; action_type := None; items := [];
          instructions := [] |}.
Proof. vm_compute. reflexivity. Qed.

(** Where a directive with a Size field and no Quantity field is followed
    by another directive, the size runs on to the next comma and the
    second directive is lost. *)
Lemma size_without_quantity_runs_on :
  extract_order_intent_from_response (U := ascii_tables)
    (u "🛒 **ADD TO CART**: Product ID 8, Size: Large
🛒 **ADD TO CART**: Product ID 9, Size: Small")
  = Ok {| has_order_action := true;
          action_type := Some add_to_cart_action;
          items := [directive_item 8 1
                      (Some (u "Large
🛒 **ADD TO CART**: Product ID 9"))];
          instructions := [u "Add Product ID 8 to cart"] |}.
Proof. vm_compute. reflexivity. Qed.

(** ** Product citations *)

Section CitationFacts.
Context {U : Unicode}.

(** Without a directive and without a corroborating phrase no action is
    found, whatever the text cites. *)
Lemma extract_without_corroboration (response : str) :
  findall true add_to_cart_pattern 3 response = [] ->
  findall true add_to_cart_alt_pattern 3 response = [] ->
  (forall phrase, In phrase (order_keywords ++ response_confirmation_keywords) ->
                  contains phrase (lower response) = false) ->
  extract_order_intent_from_response response
  = Ok {| has_order_action := false; action_type := None; items := [];
          instructions := [] |}.
Proof.
  intros H1 H2 Hnone. unfold extract_order_intent_from_response.
  rewrite H1, H2. cbn [is_nil negb].
  assert (Ho : any_in order_keywords (lower response) = false).
  { apply any_in_false. intros phrase Hin. apply Hnone, in_or_app. left. exact Hin. }
  assert (Hc : any_in response_confirmation_keywords (lower response) = false).
  { apply any_in_false. intros phrase Hin. apply Hnone, in_or_app. right. exact Hin. }
  rewrite Ho, Hc, andb_false_r. reflexivity.
Qed.

Lemma res_map_length {A B} (f : A -> res B) (l : list A) (out : list B) :
  res_map f l = Ok out -> length out = length l.
Proof.
  revert out. induction l as [|a l IH]; intros out; simpl.
  - intros [= <-]. reflexivity.
  - destruct (f a); [|discriminate]. destruct (res_map f l); [|discriminate].
    intros [= <-]. simpl. rewrite (IH _ eq_refl). reflexivity.
Qed.

Lemma cited_quantities (matches : list (list str)) (cited : list item_data) :
  res_map cited_of_match matches = Ok cited ->
  Forall (fun item => item_quantity item = 1) cited.
Proof.
  revert cited. induction matches as [|m matches IH]; intros cited; simpl.
  - intros [= <-]. constructor.
  - unfold cited_of_match at 1.
    destruct (float_of_price _); [|discriminate].
    destruct (res_map cited_of_match matches); [|discriminate].
    intros [= <-]. constructor; [reflexivity|]. apply IH. reflexivity.
Qed.

(** With citations, a corroborating phrase found in the lowercased text
    and prices that [float()] reads, the citations are suggested, one
    item of quantity 1 for each. *)
Lemma extract_corroborated_citations (response : str) (cited : list item_data) :
  findall true add_to_cart_pattern 3 response = [] ->
  findall true add_to_cart_alt_pattern 3 response = [] ->
  findall false product_pattern 3 response <> [] ->
  (exists phrase, In phrase (order_keywords ++ response_confirmation_keywords)
                  /\ contains phrase (lower response) = true) ->
  res_map cited_of_match (findall false product_pattern 3 response) = Ok cited ->
  extract_order_intent_from_response response
  = Ok {| has_order_action := true;
          action_type := Some suggest_add_to_cart_action;
          items := cited; instructions := [] |}
  /\ length cited = length (findall false product_pattern 3 response)
  /\ Forall (fun item => item_quantity item = 1) cited.
Proof.
  intros H1 H2 Hcite (phrase & Hin & Hphrase) Hcited.
  split; [|split; [eapply res_map_length; exact Hcited
                  | eapply cited_quantities; exact Hcited]].
  unfold extract_order_intent_from_response.
  rewrite H1, H2. cbn [is_nil negb].
  assert (Hany : any_in order_keywords (lower response)
                 || any_in response_confirmation_keywords (lower response) = true).
  { apply orb_true_iff. apply in_app_or in Hin as [Hin|Hin]; [left|right];
      apply any_in_spec; eauto. }
  rewrite Hany, Hcited.
  destruct (findall false product_pattern 3 response); [contradiction|]. reflexivity.
Qed.
End CitationFacts.

(** C3 fails on the code: the text holds a citation and the
    order-context phrase "shall I add", one of the fixed list; the phrase
    is looked for in the lowercased text, where its capital I never
    occurs, so no action is found. *)
Theorem shall_I_add_never_corroborates :
  let response := u "shall I add **Civet Cat** (ID: 8) - ₹3757.50 to your order?" in
  In (u "shall I add") order_keywords
  /\ contains (u "shall I add") response = true
  /\ findall (U := ascii_tables) false product_pattern 3 response
     = [[u "Civet Cat"; u "8"; u "3757.50"]]
  /\ extract_order_intent_from_response (U := ascii_tables) response
     = Ok {| has_order_action := false; action_type := None; items := [];
             instructions := [] |}.
Proof.
  split; [vm_compute; tauto|]. repeat split; vm_compute; reflexivity.
Qed.

(** A citation closed by a full stop has the stop in its price, which
    [float()] refuses: the extractor raises. *)
Lemma citation_before_full_stop_raises :
  extract_order_intent_from_response (U := ascii_tables)
    (u "Great selection! **Civet Cat** (ID: 8) - ₹3757.50. Enjoy.")
  = Raise (Exception (u "could not convert string to float: '3757.50.'")).
Proof. vm_compute. reflexivity. Qed.

Lemma extract_corroborated_citations_example :
  extract_order_intent_from_response (U := ascii_tables)
    (u "Great selection! **Civet Cat** (ID: 8) - ₹3,757.50 and **Latte** (ID: 3) - $4")
  = Ok {| has_order_action := true;
          action_type := Some suggest_add_to_cart_action;
          items := [cited_item 8 (u "Civet Cat") {| dec_digits := 375750; dec_scale := 2 |} 1;
                    cited_item 3 (u "Latte") {| dec_digits := 4; dec_scale := 0 |} 1];
          instructions := [] |}.
Proof. vm_compute. reflexivity. Qed.

(** ** Cart actions *)

Section CartActions.
Context {W : Type}.
Variable cs : CartService W.
Variable session_id : str.
Variable user_id : option Z.

(** The backend's run on a list of items is determined by the world it starts in. *)
Lemma backend_adds_functional items w added raised w' added' raised' w'' :
  backend_adds cs session_id user_id items w added raised w' ->
  backend_adds cs session_id user_id items w added' raised' w'' ->
  added = added' /\ raised = raised' /\ w' = w''.
Proof.
  intros H. revert added' raised' w''.
  induction H; intros added' raised' w'' H'; inversion H'; subst;
    repeat match goal with
           | H1 : ?x = _, H2 : ?x = _ |- _ =>
             rewrite H1 in H2; inversion H2; subst; clear H2
           end;
    try (repeat split; reflexivity);
    match goal with
    | IH : forall _ _ _, _ -> _ |- _ =>
      edestruct IH as (-> & -> & ->); [eassumption|]; repeat split; reflexivity
    end.
Qed.

(** The loop of [process_cart_action] follows the backend's run, and
    leaves in [result] what was added before the run stopped. *)
Lemma for_each_add_one items : forall (result : cart_action_result) (st : store W),
  exists added raised w',
    backend_adds cs session_id user_id items (world st) added raised w'
    /\ for_each items (add_one cs session_id user_id) result st
       = ({| success := success result;
             message := message result;
             cart_updated := cart_updated result || negb (is_nil added);
             items_added := items_added result ++ added |},
          raised, {| self := self st; world := w' |}).
Proof.
  induction items as [|item rest IH]; intros result st.
  - exists [], None, (world st). split; [constructor|]. simpl.
    rewrite orb_false_r, app_nil_r. destruct result, st. reflexivity.
  - simpl. unfold add_one at 1, bind, call, ret.
    destruct (add_to_cart cs session_id (item_product_id item) (item_quantity item)
                (item_size item) user_id (world st)) as [[[cart|]|e] w1] eqn:Hadd.
    + edestruct IH as (added & raised & w' & Hrun & ->).
      exists (added_of item :: added), raised, w'. split.
      * eapply adds_added; eassumption.
      * simpl. rewrite orb_true_r, <- app_assoc. reflexivity.
    + edestruct IH as (added & raised & w' & Hrun & ->).
      exists added, raised, w'. split.
      * eapply adds_refused; eassumption.
      * reflexivity.
    + exists [], (Some e), w1. split.
      * eapply adds_raised; eassumption.
      * simpl. rewrite orb_false_r, app_nil_r. destruct result. reflexivity.
Qed.

(** C7, as the code has it: the call always returns a result, a backend
    exception never escapes; success is reported exactly when the run over
    the items met no exception and added at least one item; after an
    exception the result carries the failure message and [success = false],
    the items added before it stay listed in [items_added], and the world
    is the one the backend left, nothing is undone. *)
Theorem process_cart_action_outcome (action_data : order_actions) (st : store W) :
  exists added raised w' r,
    backend_adds cs session_id user_id
      (if has_order_action action_data then items action_data else [])
      (world st) added raised w'
    /\ process_cart_action session_id action_data (Some cs) user_id st
       = (Ok r, {| self := self st; world := w' |})
    /\ items_added r = added
    /\ cart_updated r = negb (is_nil added)
    /\ (success r = true <-> raised = None /\ added <> [])
    /\ (forall e, raised = Some e ->
          success r = false
          /\ message r = u "Sorry, there was an error adding items to your cart: "
                           ++ str_of_exn e).
Proof.
  unfold process_cart_action.
  destruct (has_order_action action_data); simpl.
  - edestruct (for_each_add_one (items action_data)) as (added & raised & w' & Hrun & ->).
    exists added, raised, w'.
    destruct raised as [e|]; [|destruct added as [|a added]]; simpl;
      eexists; (split; [exact Hrun|]); (split; [reflexivity|]); simpl;
      repeat split; try reflexivity; try congruence;
      try (intros [? ?]; congruence); try (intros ? [=]; subst; reflexivity).
  - exists [], None, (world st). eexists.
    split; [constructor|]. split; [destruct st; reflexivity|].
    simpl. repeat split; try reflexivity; try congruence.
    intros [_ H]. congruence.
Qed.

(** Without a cart service nothing is called and nothing is added. *)
Lemma process_cart_action_no_service (action_data : order_actions) (st : store W) :
  process_cart_action session_id action_data None user_id st
  = (Ok {| success := false; message := []; cart_updated := false;
           items_added := [] |}, st).
Proof. reflexivity. Qed.
End CartActions.

(** C7, as stated, fails: the first item is added, the second is not in
    the catalogue and the backend raises; the item stays in the cart and
    is listed as added, yet the result reports [success = false]. *)
Lemma process_cart_action_partial_failure :
  let action_data :=
    {| has_order_action := true; action_type := Some add_to_cart_action;
       items := [directive_item 8 1 (Some (u ".5 lb")); directive_item 99 1 None];
       instructions := [] |} in
  let out := process_cart_action (u "s1") action_data (Some shop_cart_service)
               (Some 1%Z) (demo_store []) in
  exists r, fst out = Ok r
    /\ List.map added_product_id (items_added r) = [8]
    /\ List.map ci_product_id (cart_of (world (snd out)) 1) = [8%Z]
    /\ ~ (success r = true <-> items_added r <> []).
Proof.
  eexists. split; [vm_compute; reflexivity|]. simpl.
  split; [vm_compute; reflexivity|].
  split; [vm_compute; reflexivity|].
  intros [_ H]. discriminate H. vm_compute. discriminate.
Qed.

(** ** The checkout summary *)



(** [create_checkout_summary] has no user id to pass on: a cart service
    that keeps its carts by user, as [CartService] of db_service.py does,
    reports an empty cart to it, whatever the users' carts hold. *)
Lemma create_checkout_summary_asks_without_user (session_id : str) (st : store shop) :
  fst (create_checkout_summary session_id (Some shop_cart_service) st)
  = Ok (not_ready (u "Your cart is empty. Add some items before checkout!")).
Proof. reflexivity. Qed.

(** ** Persisting an order *)

Section OrderPersistence.
Context {W V : Type}.
Variable cs : CartService W.
Variable os : OrderService W.
Variables session_id payment_method : str.
Variable user_id : option Z.
Variable notes : option str.

(** [view w] stands for the contents of the cart of this session and
    user in the world [w], and [cleared] for the empty cart.  Reading the
    cart and creating an order leave the contents as they are, and a
    [clear_cart] that returns leaves the cart cleared. *)
Variable view : W -> V.
Variable cleared : V.
Hypothesis get_cart_reads :
  forall w, view (snd (get_cart cs session_id user_id w)) = view w.
Hypothesis create_order_keeps_cart :
  forall order w, view (snd (create_order os order w)) = view w.
Hypothesis clear_cart_clears :
  forall w b w', clear_cart cs session_id user_id w = (Ok b, w') -> view w' = cleared.

End OrderPersistence.




(** ** The registry of in-flight orders *)

Section KeepsSelf.
Context {W : Type}.

Lemma keeps_ret {A} (a : A) : keeps_self (W := W) (ret a).
Proof. intros st. reflexivity. Qed.

Lemma keeps_raise {A} (e : exn) : keeps_self (W := W) (A := A) (raise e).
Proof. intros st. reflexivity. Qed.

Lemma keeps_of_res {A} (r : res A) : keeps_self (W := W) (of_res r).
Proof. intros st. reflexivity. Qed.

Lemma keeps_call {A} (m : M W A) : keeps_self (call m).
Proof. intros st. unfold call. destruct (m (world st)). reflexivity. Qed.

Lemma keeps_bind {A B} (m : M (store W) A) (f : A -> M (store W) B) :
  keeps_self m -> (forall a, keeps_self (f a)) -> keeps_self (bind m f).
Proof.
  intros Hm Hf st. unfold bind. specialize (Hm st).
  destruct (m st) as [[a|e] st1]; simpl in *; [|exact Hm].
  rewrite Hf. exact Hm.
Qed.

Lemma keeps_try_except {A} (m : M (store W) A) (handler : exn -> M (store W) A) :
  keeps_self m -> (forall e, keeps_self (handler e)) -> keeps_self (try_except m handler).
Proof.
  intros Hm Hh st. unfold try_except. specialize (Hm st).
  destruct (m st) as [[a|e] st1]; simpl in *; [exact Hm|].
  rewrite Hh. exact Hm.
Qed.

Lemma keeps_for_each {A X} (body : X -> A -> M (store W) A) (xs : list X) :
  (forall x acc, keeps_self (body x acc)) ->
  forall acc st, self (snd (for_each xs body acc st)) = self st.
Proof.
  intros Hbody. induction xs as [|x rest IH]; intros acc st; simpl; [reflexivity|].
  specialize (Hbody x acc st).
  destruct (body x acc st) as [[acc'|e] st1]; simpl in *; [|exact Hbody].
  rewrite IH. exact Hbody.
Qed.
End KeepsSelf.

Create HintDb keeps.
#[local] Hint Resolve keeps_ret keeps_raise keeps_of_res keeps_call : keeps.

(** One step of the argument: the computation is built from [ret],
    service calls, [bind] and [try_except], under case distinctions. *)
Ltac keeps_step :=
  match goal with
  | |- keeps_self (bind _ _) => apply keeps_bind; [|intros ?]
  | |- keeps_self (try_except _ _) => apply keeps_try_except; [|intros ?]
  | |- keeps_self (if ?b then _ else _) => destruct b
  | |- keeps_self (match ?x with _ => _ end) => destruct x
  | |- keeps_self _ => solve [auto with keeps]
  end.

Ltac keeps := repeat keeps_step.

Section ProcessorKeepsSelf.
Context {U : Unicode} {W X : Type}.

Lemma keeps_add_one (cs : CartService W) session_id user_id item result :
  keeps_self (add_one cs session_id user_id item result).
Proof. unfold add_one. keeps. Qed.

Lemma keeps_process_cart_action session_id action_data
    (cart_service : option (CartService W)) user_id :
  keeps_self (process_cart_action session_id action_data cart_service user_id).
Proof.
  unfold process_cart_action. destruct cart_service as [cs|]; [|keeps].
  destruct (has_order_action action_data); simpl; [|keeps].
  intros st.
  pose proof (keeps_for_each (add_one cs session_id user_id) (items action_data)
                (keeps_add_one cs session_id user_id)
                {| success := false; message := []; cart_updated := false;
                   items_added := [] |} st) as Hloop.
  destruct (for_each _ _ _ st) as [[result raised] st1]. simpl in Hloop.
  destruct raised; [|destruct (cart_updated result)]; exact Hloop.
Qed.

Lemma keeps_get_cart_summary session_id (cart_service : option (CartService W)) user_id :
  keeps_self (get_cart_summary session_id cart_service user_id).
Proof. unfold get_cart_summary. keeps. Qed.

Lemma keeps_suggest_complementary_items current_items
    (product_service : option (ProductService W)) :
  keeps_self (suggest_complementary_items current_items product_service).
Proof. unfold suggest_complementary_items. keeps. Qed.

Lemma keeps_create_checkout_summary session_id (cart_service : option (CartService W)) :
  keeps_self (create_checkout_summary session_id cart_service).
Proof.
  unfold create_checkout_summary.
  apply keeps_bind; [apply keeps_get_cart_summary|]. intros ?. keeps.
Qed.

Lemma keeps_save_chat_order_to_database session_id payment_method user_id
    (cart_service : option (CartService W)) (order_service : option (OrderService W))
    notes :
  keeps_self (save_chat_order_to_database session_id payment_method user_id
                cart_service order_service notes).
Proof.
  unfold save_chat_order_to_database.
  destruct cart_service as [cs|], order_service as [os|]; try (keeps; fail).
  intros st. unfold call.
  destruct (get_cart cs session_id user_id (world st)) as [[cart|e] w1];
    [|reflexivity].
  destruct (match cart with Some cd => is_nil (cart_items cd) | None => true end);
    [reflexivity|]. cbn [world self].
  destruct (create_order os _ w1) as [[[created|]|e] w2]; try reflexivity.
  cbn [world self].
  destruct (clear_cart cs session_id user_id w2) as [[b|e] w3]; reflexivity.
Qed.

Lemma keeps_process_checkout_request session_id payment_method user_id
    (cart_service : option (CartService W)) (order_service : option (OrderService W)) :
  keeps_self (process_checkout_request session_id payment_method user_id
                cart_service order_service).
Proof.
  unfold process_checkout_request.
  apply keeps_bind; [apply keeps_create_checkout_summary|]. intros summary.
  destruct summary; [keeps|]. destruct payment_method as [[|c method]|]; [keeps| |keeps].
  destruct (negb _); [keeps|].
  apply keeps_bind; [apply keeps_save_chat_order_to_database|]. intros ?. keeps.
Qed.

Lemma keeps_cart_products_of (product_service : option (ProductService W)) a items :
  keeps_self (cart_products_of product_service a items).
Proof.
  induction items as [|item rest IH]; simpl; [keeps|].
  apply keeps_bind; [keeps|]. intros ?.
  apply keeps_bind; [exact IH|]. intros ?. keeps.
Qed.

Lemma keeps_generate_response (rag : Collaborators W X) query chat_history session_id
    (cart_service : option (CartService W))
    (product_service : option (ProductService W)) user_id :
  keeps_self (generate_response rag query chat_history session_id cart_service
                product_service user_id).
Proof.
  unfold generate_response. apply keeps_try_except; [|intros ?; keeps].
  destruct (_ && _ && _).
  { unfold cart_branch.
    apply keeps_bind; [apply keeps_get_cart_summary|]. intros ?. keeps. }
  destruct (_ && _ && _).
  { unfold checkout_branch.
    apply keeps_bind; [apply keeps_process_checkout_request|]. intros ?. keeps. }
  cbv zeta. destruct (_ && _ && _).
  { unfold checkout_branch.
    apply keeps_bind; [apply keeps_process_checkout_request|]. intros ?. keeps. }
  unfold generation_flow. cbv zeta.
  apply keeps_bind; [unfold retrieve_relevant_documents; keeps|]. intros docs.
  apply keeps_bind; [keeps|]. intros reply.
  apply keeps_bind.
  { unfold process_order_actions. destruct (_ && _ && _); [|keeps].
    cbv zeta. apply keeps_bind; [keeps|]. intros actions.
    destruct (has_order_action actions); [|keeps].
    apply keeps_bind; [apply keeps_process_cart_action|]. intros cart_result.
    destruct (success cart_result); [|keeps].
    apply keeps_bind; [apply keeps_get_cart_summary|]. intros ?. keeps. }
  intros [[reply' result] happened].
  apply keeps_bind; [|intros ?; keeps].
  unfold format_products. apply keeps_try_except; [|intros ?; keeps].
  destruct (_ && _); [keeps|].
  destruct happened; [|keeps]. destruct result; try (keeps; fail).
  apply keeps_bind; [apply keeps_cart_products_of|]. intros ?. keeps.
Qed.

Lemma perform_keeps_self (op : operation W X) (st : store W) :
  self (perform op st) = self st.
Proof.
  destruct op; unfold perform.
  - apply keeps_of_res.
  - apply keeps_process_cart_action.
  - apply keeps_get_cart_summary.
  - apply keeps_ret.
  - apply keeps_suggest_complementary_items.
  - apply keeps_create_checkout_summary.
  - apply keeps_save_chat_order_to_database.
  - apply keeps_ret.
  - apply keeps_process_checkout_request.
  - apply keeps_generate_response.
Qed.

Lemma perform_all_keeps_self (ops : list (operation W X)) (st : store W) :
  self (perform_all ops st) = self st.
Proof.
  revert st. induction ops as [|op rest IH]; intros st; simpl; [reflexivity|].
  unfold perform_all in *. simpl. rewrite IH. apply perform_keeps_self.
Qed.

(** C10: [active_orders] is set to the empty mapping by the constructor,
    and it is empty after every sequence of operations of the processor,
    extraction, cart actions, summaries, checkout and order persistence,
    and of the orchestrator that runs on it, whatever the services do:
    no operation adds, updates or removes an entry. *)
Theorem active_orders_stays_empty (db : option str) (w : W)
    (ops : list (operation W X)) :
  active_orders (OrderProcessor_init db) = ∅
  /\ active_orders
       (self (perform_all ops {| self := OrderProcessor_init db; world := w |})) = ∅.
Proof.
  split; [reflexivity|]. rewrite perform_all_keeps_self. reflexivity.
Qed.
End ProcessorKeepsSelf.

(** ** The orchestrator *)

Section OrchestratorFacts.
Context {U : Unicode} {W X : Type}.
Variable rag : Collaborators W X.


(** [generate_response] always returns a reply: whatever is raised
    inside becomes the apology. *)
Lemma generate_response_returns query chat_history session_id
    (cart_service : option (CartService W))
    (product_service : option (ProductService W)) user_id (st : store W) :
  exists r st',
    generate_response rag query chat_history session_id cart_service
      product_service user_id st = (Ok r, st').
Proof.
  unfold generate_response, try_except.
  match goal with |- context [match ?m st with _ => _ end] => destruct (m st) as [[r|e] st'] end;
    do 2 eexists; reflexivity.
Qed.

End OrchestratorFacts.



(** With the in-memory shop, every query that goes through the
    generation flow without a cart service has its prompt sent to the
    generation backend, whether [is_safe_query] accepts it or not: the
    function is not consulted. *)
Lemma general_query_reaches_generation (query reply : str) :
  classify_intent (U := ascii_tables) query = general ->
  let out :=
    generate_response (U := ascii_tables) shop_rag query [] None None None None
      (demo_store reply) in
  length (shop_prompts (world (snd out))) = 1%nat
  /\ exists r, fst out = Ok r /\ response_text r = reply.
Proof.
  intros Hc out. subst out. unfold generate_response, try_except. rewrite Hc.
  split; [reflexivity|]. eexists. split; reflexivity.
Qed.

(** C1 fails on the code: [is_safe_query] rejects the query, and
    [generate_response] sends it to the generation backend all the same
    and returns the backend's reply, not a refusal. *)
Theorem unsafe_query_reaches_generation :
  let query := u "how to make a bomb" in
  let out :=
    generate_response (U := ascii_tables) shop_rag query [] (Some (u "s1"))
      (Some shop_cart_service) (Some shop_product_service) (Some 1%Z)
      (demo_store (u "Here is how.")) in
  is_safe_query (U := ascii_tables) query = false
  /\ length (shop_prompts (world (snd out))) = 1%nat
  /\ exists r, fst out = Ok r
       /\ response_intent r = general
       /\ response_text r = u "Here is how.".
Proof.
  split; [vm_compute; reflexivity|]. split; [vm_compute; reflexivity|].
  eexists. split; [vm_compute; reflexivity|]. split; reflexivity.
Qed.
